(** * wareaxis: identity and multi-tenancy core

    A shallow embedding of the backend's authentication, authorization,
    tenant-resolution and tenant-provisioning code
    ([backend/app/core/security.py], [core/dependencies.py],
    [core/tenancy.py], [services/user_service.py],
    [services/tenant_service.py], [services/auth_service.py],
    [api/v1/auth.py]) together with the properties the specification
    states about it.

    Conventions of the embedding.
    - A Python [str] is a [string]; [Optional[T]] is [option T]; a Python
      [set] is a [gset]; request headers and the schemas of the database
      are [gmap]s.
    - A function that can raise returns [res A]: [Return a] or [Raise e].
    - Every call of [datetime.now] is an explicit argument of the function
      that makes it, one argument per call site.
    - Third-party libraries (passlib, python-jose, uuid) are the fields of
      the class [External]; definitions and theorems are parametric in it,
      and closed examples instantiate it with [Toy.libs].
    - The relational engine, its driver and the object-relational mapper
      are modelled by the part of their behaviour the services meet: see
      [Database]. *)

From Stdlib Require Import ZArith String Ascii List Bool Lia.
From stdpp Require Import base gmap sets list strings.

Local Open Scope string_scope.
Local Open Scope Z_scope.

(** ** Exceptions and results *)

Inductive exn : Type :=
| JWTError
| TypeError
| ValidationError
| ValueError
| IndexError
| MultipleResultsFound
| IntegrityError
| ProgrammingError
| OperationalError
| DBAPIError
| MissingGreenlet
| HTTPException (status_code : Z) (detail : string).

Inductive res (A : Type) : Type :=
| Return (a : A)
| Raise (e : exn).

Arguments Return {A} a.
Arguments Raise {A} e.

Definition res_bind {A B : Type} (m : res A) (k : A -> res B) : res B :=
  match m with
  | Return a => k a
  | Raise e => Raise e
  end.

Notation "'try' x <- m 'in' k" := (res_bind m (fun x => k))
  (at level 10, x name, m at level 100, k at level 200, only parsing).

(** Status codes of [fastapi.status]. *)
Definition HTTP_400_BAD_REQUEST : Z := 400.
Definition HTTP_401_UNAUTHORIZED : Z := 401.
Definition HTTP_403_FORBIDDEN : Z := 403.
Definition HTTP_500_INTERNAL_SERVER_ERROR : Z := 500.

(** What the caller of an endpoint sees of an exception: an
    [HTTPException] is rendered with its own status and detail, anything
    else reaches the server-error handler. *)
Definition caller_visible (e : exn) : Z * string :=
  match e with
  | HTTPException code detail => (code, detail)
  | _ => (HTTP_500_INTERNAL_SERVER_ERROR, "Internal Server Error")
  end.

(** The two failure outcomes of the authorization layer. *)
Definition is_forbidden {A : Type} (r : res A) : Prop :=
  exists detail, r = Raise (HTTPException HTTP_403_FORBIDDEN detail).

Definition is_unauthenticated {A : Type} (r : res A) : Prop :=
  exists detail, r = Raise (HTTPException HTTP_401_UNAUTHORIZED detail).

(** ** Python string helpers *)

(** [sep in s] for a one-character [sep]. *)
Fixpoint contains_char (sep : ascii) (s : string) : bool :=
  match s with
  | EmptyString => false
  | String c s' => if Ascii.eqb c sep then true else contains_char sep s'
  end.

(** [s.split(sep)] for a one-character [sep]: every occurrence splits,
    empty pieces are kept, and the result is never empty. *)
Fixpoint split_char (sep : ascii) (s : string) : list string :=
  match s with
  | EmptyString => [EmptyString]
  | String c s' =>
      if Ascii.eqb c sep then EmptyString :: split_char sep s'
      else match split_char sep s' with
           | [] => [String c EmptyString]
           | piece :: rest => String c piece :: rest
           end
  end.

(** [xs[i]] on a list: [IndexError] out of range. *)
Definition index {A : Type} (xs : list A) (i : nat) : res A :=
  match xs !! i with
  | Some x => Return x
  | None => Raise IndexError
  end.

(** Truthiness of a [str] and of an [Optional[str]]. *)
Definition truthy (s : string) : bool := negb (String.eqb s "").

Definition truthy_opt (o : option string) : bool :=
  match o with
  | Some s => truthy s
  | None => false
  end.

(** [sep.join(xs)]. *)
Fixpoint join (sep : string) (xs : list string) : string :=
  match xs with
  | [] => ""
  | [x] => x
  | x :: rest => x ++ sep ++ join sep rest
  end.

(** ** Time *)

(** A timezone-aware UTC [datetime]: microseconds since the epoch. *)
Definition datetime : Type := Z.

Module Datetime.

Definition MICROSECOND : Z := 1.
Definition SECOND : Z := 1000000.
Definition MINUTE : Z := 60 * SECOND.
Definition DAY : Z := 86400 * SECOND.

(** [timedelta(minutes=m)], [timedelta(days=d)]. *)
Definition timedelta_minutes (m : Z) : Z := m * MINUTE.
Definition timedelta_days (d : Z) : Z := d * DAY.

(** [dt.minute]. *)
Definition minute (dt : datetime) : Z := (dt / MINUTE) mod 60.

(** [dt.replace(minute=m)]: [ValueError] unless [0 <= m <= 59]; the other
    fields are kept. *)
Definition replace_minute (dt : datetime) (m : Z) : res datetime :=
  if (0 <=? m) && (m <=? 59)
  then Return (dt - minute dt * MINUTE + m * MINUTE)
  else Raise ValueError.

(** [calendar.timegm(dt.utctimetuple())]: whole seconds, the fraction
    dropped. *)
Definition timegm (dt : datetime) : Z := dt / SECOND.

(** Range of [datetime]: 0001-01-01T00:00:00 to 9999-12-31T23:59:59, in
    seconds since the epoch. *)
Definition MIN_TIMESTAMP : Z := -62135596800.
Definition MAX_TIMESTAMP : Z := 253402300799.

(** [datetime.fromtimestamp(ts, tz=timezone.utc)] for an integer [ts]. *)
Definition fromtimestamp (ts : Z) : res datetime :=
  if (MIN_TIMESTAMP <=? ts) && (ts <=? MAX_TIMESTAMP)
  then Return (ts * SECOND)
  else Raise ValueError.

End Datetime.

(** ** Settings ([core/config.py]) *)

Module Settings.
Definition API_V1_PREFIX : string := "/api/v1".
Definition ACCESS_TOKEN_EXPIRE_MINUTES : Z := 30.
Definition REFRESH_TOKEN_EXPIRE_DAYS : Z := 7.
Definition TENANT_SCHEMA_PREFIX : string := "tenant_".
End Settings.

(** ** Third-party libraries *)

(** The claims object of a JSON web token, as [jwt.decode] returns it: a
    dictionary in which any key may be missing. *)
Record Claims : Type := mkClaims {
  c_sub : option string;
  c_tenant_id : option string;
  c_roles : option (list string);
  c_exp : option Z;
  c_type : option string
}.

(** [uuid.UUID], in its canonical text form. *)
Definition UUID_t : Type := string.

Class External : Type := {
  (** [pwd_context.verify(plain, hashed)] and [pwd_context.hash(plain)]. *)
  pwd_verify : string -> string -> bool;
  pwd_hash : string -> string;
  (** [jose.jws.verify] under [settings.SECRET_KEY] and
      [settings.ALGORITHM], followed by the JSON parse of the body: the
      claims of a token whose signature validates, [None] otherwise. The
      registered claims this application never issues ([nbf], [iat],
      [aud], [iss]) are taken to be absent. *)
  jws_verify : string -> option Claims;
  (** [jwt.encode(claims, settings.SECRET_KEY, algorithm=...)]; [exp] is
      already in whole seconds. *)
  jwt_encode : Claims -> string;
  (** [uuid.UUID(text)]: [None] stands for its [ValueError]. *)
  uuid_parse : string -> option UUID_t;
  (** [str(u)]. *)
  uuid_str : UUID_t -> string
}.

(** ** [core/security.py] *)

Module Security.

Record TokenPayload : Type := mkTokenPayload {
  sub : string;
  tenant_id : string;
  exp : datetime;
  type : string;
  roles : list string
}.

Record TokenPair : Type := mkTokenPair {
  access_token : string;
  refresh_token : string;
  token_type : string;
  expires_in : Z
}.

Section WithLibs.
Context {L : External}.

Definition verify_password (plain_password hashed_password : string) : bool :=
  pwd_verify plain_password hashed_password.

Definition get_password_hash (password : string) : string :=
  pwd_hash password.

(** [create_access_token] with the default [expires_delta];
    [now] is its reading of the clock. *)
Definition create_access_token
    (user_id tenant_id : string) (roles : list string) (now : datetime) : string :=
  let expire := now + Datetime.timedelta_minutes Settings.ACCESS_TOKEN_EXPIRE_MINUTES in
  jwt_encode {| c_sub := Some user_id;
                c_tenant_id := Some tenant_id;
                c_roles := Some roles;
                c_exp := Some (Datetime.timegm expire);
                c_type := Some "access" |}.

Definition create_refresh_token
    (user_id tenant_id : string) (now : datetime) : string :=
  let expire := now + Datetime.timedelta_days Settings.REFRESH_TOKEN_EXPIRE_DAYS in
  jwt_encode {| c_sub := Some user_id;
                c_tenant_id := Some tenant_id;
                c_roles := None;
                c_exp := Some (Datetime.timegm expire);
                c_type := Some "refresh" |}.

Definition create_token_pair
    (user_id tenant_id : string) (roles : list string)
    (now_access now_refresh : datetime) : TokenPair :=
  let access_token := create_access_token user_id tenant_id roles now_access in
  let refresh_token := create_refresh_token user_id tenant_id now_refresh in
  {| access_token := access_token;
     refresh_token := refresh_token;
     token_type := "bearer";
     expires_in := Settings.ACCESS_TOKEN_EXPIRE_MINUTES * 60 |}.

(** [jose.jwt.decode(token, key, algorithms=[...])] with its default
    options: the signature is verified, and an [exp] claim, when there
    is one, is compared with the library's own reading of the clock in
    whole seconds. [JWTError] stands for the library's whole family
    (its [ExpiredSignatureError] is a subclass). *)
Definition jwt_decode (token : string) (now_lib : datetime) : res Claims :=
  match jws_verify token with
  | None => Raise JWTError
  | Some claims =>
      match c_exp claims with
      | Some e =>
          if e <? Datetime.timegm now_lib then Raise JWTError else Return claims
      | None => Return claims
      end
  end.

(** The [TokenPayload(...)] call of [decode_token]: the arguments are
    evaluated first ([fromtimestamp] of a missing [exp] is a
    [TypeError]), then the model validates the required fields. *)
Definition build_payload (payload : Claims) : res TokenPayload :=
  match c_exp payload with
  | None => Raise TypeError
  | Some e =>
      try exp_dt <- Datetime.fromtimestamp e in
      match c_sub payload, c_tenant_id payload with
      | Some s, Some t =>
          Return {| sub := s;
                    tenant_id := t;
                    exp := exp_dt;
                    type := default "access" (c_type payload);
                    roles := default [] (c_roles payload) |}
      | _, _ => Raise ValidationError
      end
  end.

Definition decode_token (token : string) (now_lib : datetime)
  : res (option TokenPayload) :=
  match jwt_decode token now_lib with
  | Raise JWTError => Return None
  | Raise e => Raise e
  | Return payload => try p <- build_payload payload in Return (Some p)
  end.

Definition verify_token (token token_type : string) (now_lib now : datetime)
  : res (option TokenPayload) :=
  try payload <- decode_token token now_lib in
  match payload with
  | None => Return None
  | Some p =>
      if negb (String.eqb (type p) token_type) then Return None
      else if exp p <? now then Return None
      else Return (Some p)
  end.

End WithLibs.

End Security.

(** ** [core/dependencies.py] *)

Module Dependencies.
Import Security.

Section WithLibs.
Context {L : External}.

(** [credentials] is what [HTTPBearer(auto_error=False)] hands over:
    [None] without a bearer header, the token string otherwise. *)
Definition get_current_user_token
    (credentials : option string) (now_lib now : datetime) : res TokenPayload :=
  match credentials with
  | None => Raise (HTTPException HTTP_401_UNAUTHORIZED "Not authenticated")
  | Some token =>
      try token_payload <- verify_token token "access" now_lib now in
      match token_payload with
      | None => Raise (HTTPException HTTP_401_UNAUTHORIZED "Invalid or expired token")
      | Some p => Return p
      end
  end.

Definition get_optional_user_token
    (credentials : option string) (now_lib now : datetime)
  : res (option TokenPayload) :=
  match credentials with
  | None => Return None
  | Some token => verify_token token "access" now_lib now
  end.

End WithLibs.

(** [require_roles], given the required roles, returns the closure
    [role_checker];
    its argument is the payload [get_current_user_token] produced. *)
Definition require_roles (required_roles : list string) (token : TokenPayload)
  : res TokenPayload :=
  let user_roles : gset string := list_to_set (roles token) in
  let required : gset string := list_to_set required_roles in
  if bool_decide ("admin" ∈ user_roles) then Return token
  else if bool_decide (required ∩ user_roles = ∅)
       then Raise (HTTPException HTTP_403_FORBIDDEN
                     ("Required roles: " ++ join ", " required_roles))
       else Return token.

Definition require_permissions (required_permissions : list string)
    (token : TokenPayload) : res TokenPayload :=
  if bool_decide ("admin" ∈ roles token) then Return token
  else Raise (HTTPException HTTP_403_FORBIDDEN
                ("Required permissions: " ++ join ", " required_permissions)).

(** The dependency chain FastAPI resolves for an endpoint guarded by
    [Depends(require_roles(...))]: the token dependency first, the role
    check on its result. *)
Definition depends_require_roles `{External}
    (required_roles : list string) (credentials : option string)
    (now_lib now : datetime) : res TokenPayload :=
  try token <- get_current_user_token credentials now_lib now in
  require_roles required_roles token.

End Dependencies.

(** ** [core/tenancy.py] *)

Module Tenancy.
Import Security.

(** The part of a Starlette [Request] the middleware reads:
    [request.url.path] and the headers, keyed by the names the source
    asks for. *)
Record Request : Type := mkRequest {
  url_path : string;
  headers : gmap string string
}.

Record Response : Type := mkResponse {
  status_code : Z;
  body : string
}.

(** [request.state.tenant_id]: the attribute is absent until the
    middleware assigns it; it may be assigned [None]. *)
Definition RequestState : Type := option (option string).

(** The downstream application behind [call_next]. Nothing downstream
    calls [set_current_tenant]; a handler reads the context variable
    ([get_current_tenant]) and the request state, and returns a response
    or raises. *)
Definition RequestResponseEndpoint : Type :=
  option string -> RequestState -> res Response.

Definition PUBLIC_PATHS : list string :=
  [ "/";
    "/health";
    "/docs";
    "/redoc";
    "/openapi.json";
    Settings.API_V1_PREFIX ++ "/auth/login";
    Settings.API_V1_PREFIX ++ "/auth/register";
    Settings.API_V1_PREFIX ++ "/auth/refresh";
    Settings.API_V1_PREFIX ++ "/tenants/register" ].

(** The loop of [_is_public_path] over a list of public paths. *)
Fixpoint is_public_in (public_paths : list string) (path : string) : bool :=
  match public_paths with
  | [] => false
  | public_path :: rest =>
      if String.prefix public_path path || String.eqb path public_path
      then true
      else is_public_in rest path
  end.

Definition _is_public_path (path : string) : bool :=
  is_public_in PUBLIC_PATHS path.

Definition RESERVED_SUBDOMAINS : list string := ["www"; "api"; "app"].

Section WithLibs.
Context {L : External}.

(** Step 1 of [_extract_tenant]: the tenant claim of the bearer token.
    [Return None] means "fall through to the next source". *)
Definition tenant_from_jwt (request : Request) (now_lib : datetime)
  : res (option string) :=
  match headers request !! "Authorization" with
  | Some auth_header =>
      if truthy auth_header && String.prefix "Bearer " auth_header then
        try token <- index (split_char " " auth_header) 1 in
        try payload <- decode_token token now_lib in
        match payload with
        | Some p =>
            if truthy (tenant_id p) then Return (Some (tenant_id p))
            else Return None
        | None => Return None
        end
      else Return None
  | None => Return None
  end.

Definition _extract_tenant (request : Request) (now_lib : datetime)
  : res (option string) :=
  try from_jwt <- tenant_from_jwt request now_lib in
  match from_jwt with
  | Some t => Return (Some t)
  | None =>
      let tenant_header := headers request !! "X-Tenant-ID" in
      if truthy_opt tenant_header then Return tenant_header
      else
        let host := default "" (headers request !! "Host") in
        if contains_char "." host then
          try subdomain <- index (split_char "." host) 0 in
          if truthy subdomain
             && negb (bool_decide (subdomain ∈ RESERVED_SUBDOMAINS))
          then Return (Some subdomain)
          else Return None
        else Return None
  end.

(** [dispatch]. The first component of the result is the value of the
    context variable [current_tenant_id] when [dispatch] is left, by
    return or by exception; [ctx] is its value on entry. *)
Definition dispatch
    (ctx : option string) (request : Request)
    (call_next : RequestResponseEndpoint) (now_lib : datetime)
  : option string * res Response :=
  if _is_public_path (url_path request) then
    (ctx, call_next ctx None)
  else
    match _extract_tenant request now_lib with
    | Raise e => (ctx, Raise e)
    | Return tenant_id =>
        let '(ctx1, state1) :=
          if truthy_opt tenant_id then (tenant_id, Some tenant_id)
          else if negb (_is_public_path (url_path request))
               then (None, Some None)
               else (ctx, None) in
        match call_next ctx1 state1 with
        | Raise e => (ctx1, Raise e)
        | Return response => (None, Return response)
        end
    end.

End WithLibs.

End Tenancy.

(** ** [models/tenant.py], [models/user.py]

    The columns the modelled code paths read or write; profile, address
    and audit columns that none of them touches are left out. *)

Module Models.

Module Tenant.
Record t : Type := mk {
  id : UUID_t;
  name : string;
  slug : string;
  is_active : bool;
  is_verified : bool;
  contact_email : string;
  schema_name : string;
  schema_created : bool
}.

Definition with_schema_created (b : bool) (x : t) : t :=
  {| id := id x; name := name x; slug := slug x; is_active := is_active x;
     is_verified := is_verified x; contact_email := contact_email x;
     schema_name := schema_name x; schema_created := b |}.
End Tenant.

Module TenantSettings.
Record t : Type := mk {
  id : UUID_t;
  tenant_id : UUID_t
}.
End TenantSettings.

Module Role.
Record t : Type := mk {
  id : UUID_t;
  code : string;
  name : string;
  description : string;
  is_system : bool;
  is_active : bool
}.
End Role.

Module UserRole.
Record t : Type := mk {
  user_id : UUID_t;
  role_id : UUID_t
}.
End UserRole.

Module User.
Record t : Type := mk {
  id : UUID_t;
  email : string;
  username : string;
  password_hash : string;
  first_name : string;
  last_name : string;
  is_active : bool;
  is_verified : bool;
  is_superuser : bool;
  is_deleted : bool;
  last_login : option datetime;
  failed_login_attempts : Z;
  locked_until : option datetime
}.

(** Assignment to the three attributes [authenticate] writes. *)
Definition with_failed_login_attempts (n : Z) (u : t) : t :=
  {| id := id u; email := email u; username := username u;
     password_hash := password_hash u; first_name := first_name u;
     last_name := last_name u; is_active := is_active u;
     is_verified := is_verified u; is_superuser := is_superuser u;
     is_deleted := is_deleted u; last_login := last_login u;
     failed_login_attempts := n; locked_until := locked_until u |}.

Definition with_locked_until (l : option datetime) (u : t) : t :=
  {| id := id u; email := email u; username := username u;
     password_hash := password_hash u; first_name := first_name u;
     last_name := last_name u; is_active := is_active u;
     is_verified := is_verified u; is_superuser := is_superuser u;
     is_deleted := is_deleted u; last_login := last_login u;
     failed_login_attempts := failed_login_attempts u; locked_until := l |}.

Definition with_last_login (l : option datetime) (u : t) : t :=
  {| id := id u; email := email u; username := username u;
     password_hash := password_hash u; first_name := first_name u;
     last_name := last_name u; is_active := is_active u;
     is_verified := is_verified u; is_superuser := is_superuser u;
     is_deleted := is_deleted u; last_login := l;
     failed_login_attempts := failed_login_attempts u;
     locked_until := locked_until u |}.
End User.

End Models.

(** ** The storage engine and the SQLAlchemy session

    The relational engine (PostgreSQL behind asyncpg) is not part of the
    repository; this is the part of its documented behaviour the services
    rely on: transactions with commit and rollback, unique constraints,
    the lexical reading of a name spliced into a statement, the
    resolution of an unqualified table name along [search_path], and the
    [search_path] a pooled connection keeps from one request to the
    next. *)

Module Database.
Import Models.

(** The tenant-scoped tables of one schema. The repository creates them
    in a tenant's schema only, all in the one transaction of
    [create_schema]; [init_db] creates none of them (the [Base] it uses
    is not the one the models are declared on). *)
Record Partition : Type := mkPartition {
  users : list User.t;
  roles : list Role.t;
  user_roles : list UserRole.t
}.

Definition empty_partition : Partition :=
  {| users := []; roles := []; user_roles := [] |}.

(** [public.tenants] and [public.tenant_settings] are always addressed by
    their qualified names; [schemas] maps the name of every schema that
    carries the tenant-scoped tables to them, under the name the catalog
    holds. [public] is among them only when the tables were put there by
    other means than this code. *)
Record Db : Type := mkDb {
  tenants : list Tenant.t;
  tenant_settings : list TenantSettings.t;
  schemas : gmap string Partition
}.

(** An [AsyncSession] on its pooled connection: what is durably
    committed, what the open transaction sees, and the connection's
    [search_path], the names as the catalog holds them. *)
Record Session : Type := mkSession {
  committed : Db;
  working : Db;
  search_path : list string
}.

(** [AsyncSessionLocal()] on a database. The session works on a
    connection checked out of the pool, and [SET search_path] is a
    setting of the connection that outlives the transaction that
    committed it: [inherited] is the path the connection was left with,
    [["public"]] on a new connection and whatever an earlier request set
    and committed on a reused one. *)
Definition open_session (inherited : list string) (db : Db) : Session :=
  {| committed := db; working := db; search_path := inherited |}.

(** Code that uses a session: state passing with exceptions. *)
Definition M (A : Type) : Type := Session -> Session * res A.

Definition ret {A : Type} (a : A) : M A := fun s => (s, Return a).

Definition raise {A : Type} (e : exn) : M A := fun s => (s, Raise e).

Definition bind {A B : Type} (m : M A) (k : A -> M B) : M B :=
  fun s =>
    match m s with
    | (s', Return a) => k a s'
    | (s', Raise e) => (s', Raise e)
    end.

Definition lift {A : Type} (r : res A) : M A := fun s => (s, r).

(** [try: body except Exception as e: handler(e)]. *)
Definition try_except {A : Type} (body : M A) (handler : exn -> M A) : M A :=
  fun s =>
    match body s with
    | (s', Return a) => (s', Return a)
    | (s', Raise e) => handler e s'
    end.

Definition get_working : M Db := fun s => (s, Return (working s)).

Definition put_working (db : Db) : M unit :=
  fun s => ({| committed := committed s; working := db;
               search_path := search_path s |}, Return tt).

(** [await db.commit()], [await db.rollback()], [await session.close()].
    The engine also takes back a [SET] made in a transaction that is
    rolled back; every rollback in this code is followed by a re-raise
    that ends the request, nothing reads the search path after it, and
    the field is left as it is. *)
Definition commit : M unit :=
  fun s => ({| committed := working s; working := working s;
               search_path := search_path s |}, Return tt).

Definition rollback : M unit :=
  fun s => ({| committed := committed s; working := committed s;
               search_path := search_path s |}, Return tt).

Definition close (s : Session) : Db := committed s.

(** The dependency [get_db]: a session around the request, closed in the
    [finally] whatever the outcome; what remains is what was committed. *)
Definition get_db {A : Type} (endpoint : M A) (inherited : list string)
    (db : Db) : Db * res A :=
  let '(s, r) := endpoint (open_session inherited db) in (close s, r).

(** *** Names spliced into statement text

    The services build their [SET] and DDL statements by splicing a name
    into the text. What reaches the catalog is what the engine's lexer
    makes of that text: white space is skipped, [--] starts a comment
    that runs to the end of the line, a lone hyphen is an operator, and
    an unquoted identifier is folded to lower case and cut to 63 bytes.
    The scanner covers the statements as they come out for a name that
    is the schema prefix followed by what [validate_slug] lets through
    (lower-case letters, digits, hyphens, a final line feed), with the
    fixed text the services put around it. What else a header or a
    token claim can splice in (quotes, semicolons, block comments, a
    number or a string as an item of a list) is outside the model and is
    scanned as a token that no statement accepts; the theorems about
    such names assume a bare identifier. Reserved words are not
    modelled: every name this code splices is [public] or begins with
    the schema prefix. *)

(** A bare identifier: a letter or underscore, then letters, digits,
    underscores and dollar signs. *)
Definition is_letter (c : ascii) : bool :=
  let n := N_of_ascii c in
  (((65 <=? n) && (n <=? 90)) || ((97 <=? n) && (n <=? 122)))%N.

Definition is_digit (c : ascii) : bool :=
  let n := N_of_ascii c in ((48 <=? n) && (n <=? 57))%N.

Definition is_identifier_char (c : ascii) : bool :=
  is_letter c || is_digit c || Ascii.eqb c "_" || Ascii.eqb c "$".

Fixpoint all_chars (p : ascii -> bool) (s : string) : bool :=
  match s with
  | EmptyString => true
  | String c s' => p c && all_chars p s'
  end.

Definition sql_identifier (s : string) : bool :=
  match s with
  | EmptyString => false
  | String c s' =>
      (is_letter c || Ascii.eqb c "_") && all_chars is_identifier_char s'
  end.

(** White space and line ends of the lexer. *)
Definition is_sql_space (c : ascii) : bool :=
  let n := N_of_ascii c in
  ((n =? 32) || (n =? 9) || (n =? 10) || (n =? 13) || (n =? 12))%N.

Definition is_newline (c : ascii) : bool :=
  let n := N_of_ascii c in ((n =? 10) || (n =? 13))%N.

(** The name the catalog holds for an unquoted identifier: upper-case
    letters folded, the result cut to [NAMEDATALEN - 1] bytes. *)
Definition downcase (c : ascii) : ascii :=
  let n := N_of_ascii c in
  if ((65 <=? n) && (n <=? 90))%N then ascii_of_N (n + 32) else c.

Fixpoint map_chars (f : ascii -> ascii) (s : string) : string :=
  match s with
  | EmptyString => EmptyString
  | String c s' => String (f c) (map_chars f s')
  end.

Definition NAMEDATALEN : nat := 64.

Definition sql_fold (name : string) : string :=
  String.substring 0 (NAMEDATALEN - 1) (map_chars downcase name).

Inductive token : Type :=
| TName (name : string)
| TComma
| TOther.

Inductive scan_state : Type :=
| Idle
| InName (text : string)
| Dash
| Comment.

Definition scan_idle (c : ascii) : list token * scan_state :=
  if is_sql_space c then ([], Idle)
  else if is_letter c || Ascii.eqb c "_" then ([], InName (String c EmptyString))
  else if Ascii.eqb c "," then ([TComma], Idle)
  else if Ascii.eqb c "-" then ([], Dash)
  else ([TOther], Idle).

Definition scan_step (st : scan_state) (c : ascii) : list token * scan_state :=
  match st with
  | Idle => scan_idle c
  | InName text =>
      if is_identifier_char c then ([], InName (text ++ String c EmptyString))
      else let '(ts, st') := scan_idle c in (TName (sql_fold text) :: ts, st')
  | Dash =>
      if Ascii.eqb c "-" then ([], Comment)
      else let '(ts, st') := scan_idle c in (TOther :: ts, st')
  | Comment => if is_newline c then ([], Idle) else ([], Comment)
  end.

Definition scan_end (st : scan_state) : list token :=
  match st with
  | Idle => []
  | InName text => [TName (sql_fold text)]
  | Dash => [TOther]
  | Comment => []
  end.

Fixpoint scan (st : scan_state) (text : string) : list token :=
  match text with
  | EmptyString => scan_end st
  | String c rest => let '(ts, st') := scan_step st c in ts ++ scan st' rest
  end.

Definition sql_tokens (text : string) : list token := scan Idle text.

(** A list of names separated by commas. *)
Fixpoint names_of (ts : list token) : option (list string) :=
  match ts with
  | TName n :: ts' =>
      match ts' with
      | [] => Some [n]
      | TComma :: rest =>
          match names_of rest with
          | Some names => Some (n :: names)
          | None => None
          end
      | _ => None
      end
  | _ => None
  end.

(** [SET search_path TO <text>], the text being what the f-string put
    behind [TO]: a syntax error unless it reads as a list of names. A name
    on the path need not exist. *)
Definition set_search_path (text : string) : M unit :=
  fun s =>
    match names_of (sql_tokens text) with
    | Some names => ({| committed := committed s; working := working s;
                        search_path := names |}, Return tt)
    | None => (s, Raise ProgrammingError)
    end.

(** The schema in which an unqualified table name resolves: the first
    schema of [search_path] that carries the tables. *)
Definition current_schema (s : Session) : option string :=
  List.find (fun n => bool_decide (is_Some (schemas (working s) !! n)))
            (search_path s).

(** The tenant-scoped tables an unqualified statement addresses;
    "relation does not exist" when no schema of the path exists. *)
Definition partition : M (string * Partition) :=
  fun s =>
    match current_schema s with
    | Some n =>
        match schemas (working s) !! n with
        | Some p => (s, Return (n, p))
        | None => (s, Raise ProgrammingError)
        end
    | None => (s, Raise ProgrammingError)
    end.

Definition put_partition (n : string) (p : Partition) : M unit :=
  fun s =>
    ({| committed := committed s;
        working := {| tenants := tenants (working s);
                      tenant_settings := tenant_settings (working s);
                      schemas := <[n := p]> (schemas (working s)) |};
        search_path := search_path s |}, Return tt).

(** [result.scalar_one_or_none()]. *)
Definition scalar_one_or_none {A : Type} (rows : list A) : res (option A) :=
  match rows with
  | [] => Return None
  | [x] => Return (Some x)
  | _ => Raise MultipleResultsFound
  end.

(** Statements of the provisioning workflow at which a storage failure
    can be injected. *)
Inductive Statement : Type :=
| InsertTenant
| InsertTenantSettings
| CreateSchema
| CreateTables
| SeedRoles
| MarkSchemaCreated
| BindSearchPath
| SelectAdminRole
| InsertAdminUser
| InsertAdminUserRole.

Definition FaultPlan : Type := Statement -> bool.

Definition no_faults : FaultPlan := fun _ => false.

(** A statement under a fault plan: a planned failure surfaces as the
    driver's [OperationalError] before the statement has any effect. *)
Definition statement {A : Type} (faults : FaultPlan) (st : Statement) (m : M A)
  : M A :=
  fun s => if faults st then (s, Raise OperationalError) else m s.

End Database.

Notation "'run' x <- m 'in' k" := (Database.bind m (fun x => k))
  (at level 10, x name, m at level 100, k at level 200, only parsing).

(** ** [schemas/auth.py], [schemas/tenant.py] *)

Module Schemas.

Record LoginRequest : Type := mkLoginRequest {
  username : string;
  password : string;
  tenant_slug : option string
}.

Record TokenResponse : Type := mkTokenResponse {
  access_token : string;
  refresh_token : string;
  token_type : string;
  expires_in : Z
}.

Record TenantCreate : Type := mkTenantCreate {
  name : string;
  slug : string;
  contact_email : string
}.

Record TenantRegistration : Type := mkTenantRegistration {
  tenant_name : string;
  reg_tenant_slug : string;
  reg_contact_email : string;
  admin_email : string;
  admin_username : string;
  admin_password : string;
  admin_first_name : string;
  admin_last_name : string
}.

(** [validate_slug]: [re.match] of the pattern
    [^[a-z0-9][a-z0-9-]*[a-z0-9]$] on a field of 2 to 100 characters. In
    Python [$] matches at the end of the string and also just before a
    line feed that ends it, so a slug may carry one trailing line
    feed. *)
Definition is_slug_alnum (c : ascii) : bool :=
  let n := N_of_ascii c in
  (((97 <=? n) && (n <=? 122)) || ((48 <=? n) && (n <=? 57)))%N.

Definition is_slug_char (c : ascii) : bool :=
  is_slug_alnum c || Ascii.eqb c "-".

Definition at_dollar (s : string) : bool :=
  match s with
  | EmptyString => true
  | String c EmptyString => Ascii.eqb c "010"%char
  | _ => false
  end.

Fixpoint slug_tail (s : string) : bool :=
  match s with
  | EmptyString => false
  | String c s' =>
      (is_slug_alnum c && at_dollar s') || (is_slug_char c && slug_tail s')
  end.

Definition validate_slug (v : string) : bool :=
  match v with
  | EmptyString => false
  | String c s' =>
      is_slug_alnum c && slug_tail s'
      && (2 <=? String.length v)%nat && (String.length v <=? 100)%nat
  end.

End Schemas.

(** ** [services/user_service.py] *)

Module UserService.
Import Models Database.

(** The readings of the clock in [authenticate], one per call site: the
    lock test, the receiver and the argument of [replace], and the
    [last_login] stamp. *)
Record AuthClock : Type := mkAuthClock {
  now_lock_check : datetime;
  now_lock_base : datetime;
  now_lock_minute : datetime;
  now_last_login : datetime
}.

(** Every call site reads the same instant. *)
Definition at_instant (now : datetime) : AuthClock :=
  {| now_lock_check := now; now_lock_base := now;
     now_lock_minute := now; now_last_login := now |}.

Definition LOCKOUT_THRESHOLD : Z := 5.
Definition LOCKOUT_MINUTES : Z := 30.

(** [select(User).where(and_(cond, User.is_deleted == False))] followed
    by [scalar_one_or_none]. *)
Definition select_user (cond : User.t -> bool) : M (option User.t) :=
  run sp <- partition in
  lift (scalar_one_or_none
          (List.filter (fun u => cond u && negb (User.is_deleted u))
                       (users (snd sp)))).

Definition get_by_id (user_id : UUID_t) : M (option User.t) :=
  select_user (fun u => String.eqb (User.id u) user_id).

Definition get_by_email (email : string) : M (option User.t) :=
  select_user (fun u => String.eqb (User.email u) email).

Definition get_by_username (username : string) : M (option User.t) :=
  select_user (fun u => String.eqb (User.username u) username).

(** The two timestamp columns [last_login] and [locked_until] are
    declared without [timezone=True] ([models/user.py]), so the driver
    binds their parameters as TIMESTAMP WITHOUT TIME ZONE and refuses a
    timezone-aware value; every datetime this code assigns is aware
    ([datetime.now(timezone.utc)]). The unit of work sends an attribute
    only when its value differs from the loaded one, and sends [None] as
    NULL: an aware timestamp goes out exactly when the attribute holds
    one that the loaded row did not. *)
Definition sends_aware (loaded current : option datetime) : bool :=
  match current with
  | Some v =>
      match loaded with
      | Some w => negb (w =? v)
      | None => true
      end
  | None => false
  end.

(** The flush of a modified object: [loaded] is the row as the query
    returned it, [user] the object now. The [UPDATE users ... WHERE id =
    :pk] carries the changed attributes; when one of them is an aware
    timestamp the statement fails in the driver, the flush raises
    [DBAPIError] and nothing is written. *)
Definition flush_user (loaded user : User.t) : M unit :=
  if sends_aware (User.last_login loaded) (User.last_login user)
     || sends_aware (User.locked_until loaded) (User.locked_until user)
  then raise DBAPIError
  else
    run sp <- partition in
    put_partition (fst sp)
      {| users := List.map (fun r => if String.eqb (User.id r) (User.id user)
                                     then user else r)
                           (users (snd sp));
         roles := roles (snd sp);
         user_roles := user_roles (snd sp) |}.

(** [user.role_codes] on an object whose [roles] relationship came with
    the row (the lookups of [UserService] ask for it with
    [selectinload(User.roles)]): the codes of the roles linked to the user
    through [user_roles]. *)
Definition role_codes_in (p : Partition) (user : User.t) : list string :=
  List.map Role.code
    (List.filter
       (fun r => existsb (fun ur => String.eqb (UserRole.user_id ur) (User.id user)
                                    && String.eqb (UserRole.role_id ur) (Role.id r))
                         (user_roles p))
       (roles p)).

Definition role_codes (user : User.t) : M (list string) :=
  run sp <- partition in ret (role_codes_in (snd sp) user).

(** [user.role_codes] on an object whose [roles] relationship was never
    loaded, as the [User] that [create_admin_user] builds, flushes and
    refreshes: reading the attribute starts a lazy load, which the
    asyncio session refuses outside a greenlet. *)
Definition role_codes_unloaded (user : User.t) : M (list string) :=
  raise MissingGreenlet.

Section WithLibs.
Context {L : External}.

Definition authenticate (username password : string) (clock : AuthClock)
  : M (option User.t) :=
  run user <- get_by_username username in
  run user <- match user with
              | Some u => ret (Some u)
              | None => get_by_email username
              end in
  match user with
  | None => ret None
  | Some user =>
      if negb (User.is_active user) then ret None
      else if match User.locked_until user with
              | Some until => now_lock_check clock <? until
              | None => false
              end
      then ret None
      else if negb (Security.verify_password password (User.password_hash user)) then
        let user' := User.with_failed_login_attempts
                       (User.failed_login_attempts user + 1) user in
        run user' <-
          (if LOCKOUT_THRESHOLD <=? User.failed_login_attempts user' then
             run until <- lift (Datetime.replace_minute
                                  (now_lock_base clock)
                                  (Datetime.minute (now_lock_minute clock)
                                   + LOCKOUT_MINUTES)) in
             ret (User.with_locked_until (Some until) user')
           else ret user') in
        (* await self.db.commit(): the flush, then the commit *)
        run _ <- flush_user user user' in
        run _ <- commit in
        ret None
      else
        let user' := User.with_failed_login_attempts 0 user in
        let user' := User.with_locked_until None user' in
        let user' := User.with_last_login (Some (now_last_login clock)) user' in
        run _ <- flush_user user user' in
        run _ <- commit in
        ret (Some user')
  end.

Definition create_admin_user (faults : FaultPlan)
    (email username password first_name last_name : string)
    (new_id : UUID_t) : M User.t :=
  run sp <- statement faults SelectAdminRole partition in
  run admin_role <-
    lift (scalar_one_or_none
            (List.filter (fun r => String.eqb (Role.code r) "admin")
                         (roles (snd sp)))) in
  let user :=
    {| User.id := new_id;
       User.email := email;
       User.username := username;
       User.password_hash := Security.get_password_hash password;
       User.first_name := first_name;
       User.last_name := last_name;
       User.is_active := true;
       User.is_verified := true;
       User.is_superuser := true;
       User.is_deleted := false;
       User.last_login := None;
       User.failed_login_attempts := 0;
       User.locked_until := None |} in
  (* self.db.add(user); await self.db.flush() *)
  run sp <- statement faults InsertAdminUser partition in
  if existsb (fun u => String.eqb (User.id u) new_id
                       || String.eqb (User.email u) email
                       || String.eqb (User.username u) username)
             (users (snd sp))
  then raise IntegrityError
  else
    run _ <- put_partition (fst sp)
               {| users := users (snd sp) ++ [user];
                  roles := roles (snd sp);
                  user_roles := user_roles (snd sp) |} in
    (* the UserRole row goes out with the commit *)
    run _ <- match admin_role with
             | Some role =>
                 run sp <- statement faults InsertAdminUserRole partition in
                 put_partition (fst sp)
                   {| users := users (snd sp);
                      roles := roles (snd sp);
                      user_roles := user_roles (snd sp)
                                    ++ [ {| UserRole.user_id := new_id;
                                            UserRole.role_id := Role.id role |} ] |}
             | None => ret tt
             end in
    run _ <- commit in
    ret user.

End WithLibs.

End UserService.

(** ** [services/tenant_service.py] *)

Module TenantService.
Import Models Database.

Definition get_by_slug (slug : string) : M (option Tenant.t) :=
  run db <- get_working in
  lift (scalar_one_or_none
          (List.filter (fun t => String.eqb (Tenant.slug t) slug) (tenants db))).

(** [String(100)] of [Tenant.schema_name] in [models/tenant.py]. *)
Definition SCHEMA_NAME_WIDTH : nat := 100.

(** [create]: the [Tenant] row goes out with the flush, the
    [TenantSettings] row with the commit that ends the method.
    [new_id] and [settings_id] are the primary keys [uuid4] draws. The
    column [schema_name] is a [String(100)]: a longer value is refused by
    the engine when the row is inserted. *)
Definition create (faults : FaultPlan) (data : Schemas.TenantCreate)
    (new_id settings_id : UUID_t) : M Tenant.t :=
  let schema_name := Settings.TENANT_SCHEMA_PREFIX ++ Schemas.slug data in
  let tenant :=
    {| Tenant.id := new_id;
       Tenant.name := Schemas.name data;
       Tenant.slug := Schemas.slug data;
       Tenant.is_active := true;
       Tenant.is_verified := false;
       Tenant.contact_email := Schemas.contact_email data;
       Tenant.schema_name := schema_name;
       Tenant.schema_created := false |} in
  (* self.db.add(tenant); await self.db.flush() *)
  run db <- statement faults InsertTenant get_working in
  if (SCHEMA_NAME_WIDTH <? String.length schema_name)%nat then raise DBAPIError
  else
  if existsb (fun t => String.eqb (Tenant.id t) new_id
                       || String.eqb (Tenant.slug t) (Schemas.slug data)
                       || String.eqb (Tenant.schema_name t) schema_name)
             (tenants db)
  then raise IntegrityError
  else
    run _ <- put_working {| tenants := tenants db ++ [tenant];
                            tenant_settings := tenant_settings db;
                            schemas := schemas db |} in
    (* self.db.add(tenant_settings); await self.db.commit() *)
    run db <- statement faults InsertTenantSettings get_working in
    if existsb (fun ts => String.eqb (TenantSettings.id ts) settings_id
                          || String.eqb (TenantSettings.tenant_id ts) new_id)
               (tenant_settings db)
    then raise IntegrityError
    else
      run _ <- put_working
                 {| tenants := tenants db;
                    tenant_settings :=
                      tenant_settings db
                      ++ [ {| TenantSettings.id := settings_id;
                              TenantSettings.tenant_id := new_id |} ];
                    schemas := schemas db |} in
      run _ <- commit in
      ret tenant.

(** [CREATE SCHEMA IF NOT EXISTS <text>], the text being what the
    f-string put behind the keywords: a syntax error unless it reads as
    one name. The tables come in the same transaction ([create_schema]),
    so the new schema is entered with its tables, empty. *)
Definition create_schema_if_not_exists (text : string) : M unit :=
  match sql_tokens text with
  | [TName name] =>
      run db <- get_working in
      match schemas db !! name with
      | Some _ => ret tt
      | None => put_working {| tenants := tenants db;
                               tenant_settings := tenant_settings db;
                               schemas := <[name := empty_partition]> (schemas db) |}
      end
  | _ => raise ProgrammingError
  end.

(** [INSERT INTO roles ... ON CONFLICT (code) DO NOTHING]. *)
Definition seed_role (code name description : string) (new_id : UUID_t)
  : M unit :=
  run sp <- partition in
  if existsb (fun r => String.eqb (Role.code r) code) (roles (snd sp))
  then ret tt
  else put_partition (fst sp)
         {| users := users (snd sp);
            roles := roles (snd sp)
                     ++ [ {| Role.id := new_id; Role.code := code;
                             Role.name := name;
                             Role.description := description;
                             Role.is_system := true;
                             Role.is_active := true |} ];
            user_roles := user_roles (snd sp) |}.

(** The [UPDATE public.tenants ... WHERE id = :pk] for a modified
    [Tenant] object. *)
Definition flush_tenant (tenant : Tenant.t) : M unit :=
  run db <- get_working in
  put_working
    {| tenants := List.map (fun r => if String.eqb (Tenant.id r) (Tenant.id tenant)
                                     then tenant else r)
                           (tenants db);
       tenant_settings := tenant_settings db;
       schemas := schemas db |}.

(** [create_schema]. The method sets [schema_created] on the object it
    was given, which its caller still holds: the object is returned next
    to the method's [True]. *)
Definition create_schema (faults : FaultPlan) (tenant : Tenant.t)
    (admin_role_id user_role_id : UUID_t) : M (bool * Tenant.t) :=
  try_except
    (run _ <- statement faults CreateSchema
                (create_schema_if_not_exists (Tenant.schema_name tenant)) in
     run _ <- set_search_path (Tenant.schema_name tenant) in
     run _ <- statement faults CreateTables (ret tt) in
     run _ <- statement faults SeedRoles
                (seed_role "admin" "Administrator" "Full system access"
                           admin_role_id) in
     run _ <- statement faults SeedRoles
                (seed_role "user" "User" "Standard user access"
                           user_role_id) in
     run _ <- set_search_path "public" in
     let tenant := Tenant.with_schema_created true tenant in
     run _ <- statement faults MarkSchemaCreated (flush_tenant tenant) in
     run _ <- commit in
     ret (true, tenant))
    (fun e => run _ <- rollback in raise e).

End TenantService.

(** ** [services/auth_service.py] *)

Module AuthService.
Import Models Database.

Definition token_response (token_pair : Security.TokenPair)
  : Schemas.TokenResponse :=
  {| Schemas.access_token := Security.access_token token_pair;
     Schemas.refresh_token := Security.refresh_token token_pair;
     Schemas.token_type := Security.token_type token_pair;
     Schemas.expires_in := Security.expires_in token_pair |}.

(** The primary keys drawn while a tenant is provisioned. *)
Record FreshIds : Type := mkFreshIds {
  tenant_uuid : UUID_t;
  settings_uuid : UUID_t;
  admin_role_uuid : UUID_t;
  user_role_uuid : UUID_t;
  admin_user_uuid : UUID_t
}.

Section WithLibs.
Context {L : External}.

Definition login (username password : string) (tenant_slug : option string)
    (clock : UserService.AuthClock) (now_access now_refresh : datetime)
  : M (option (Schemas.TokenResponse * User.t * Tenant.t)) :=
  if negb (truthy_opt tenant_slug) then ret None
  else
    let slug := default "" tenant_slug in
    run tenant <- TenantService.get_by_slug slug in
    match tenant with
    | None => ret None
    | Some tenant =>
        if negb (Tenant.is_active tenant) then ret None
        else
          run _ <- set_search_path (Tenant.schema_name tenant ++ ", public") in
          run user <- UserService.authenticate username password clock in
          match user with
          | None => ret None
          | Some user =>
              run codes <- UserService.role_codes user in
              let token_pair :=
                Security.create_token_pair (uuid_str (User.id user)) slug codes
                                           now_access now_refresh in
              ret (Some (token_response token_pair, user, tenant))
          end
    end.

Definition refresh_token (refresh_token : string)
    (now_lib now now_access now_refresh : datetime)
  : M (option Schemas.TokenResponse) :=
  run payload <- lift (Security.verify_token refresh_token "refresh" now_lib now) in
  match payload with
  | None => ret None
  | Some payload =>
      run tenant <- TenantService.get_by_slug (Security.tenant_id payload) in
      match tenant with
      | None => ret None
      | Some tenant =>
          if negb (Tenant.is_active tenant) then ret None
          else
            run _ <- set_search_path (Tenant.schema_name tenant ++ ", public") in
            run user_id <- lift (match uuid_parse (Security.sub payload) with
                                 | Some u => Return u
                                 | None => Raise ValueError
                                 end) in
            run user <- UserService.get_by_id user_id in
            match user with
            | None => ret None
            | Some user =>
                if negb (User.is_active user) then ret None
                else
                  run codes <- UserService.role_codes user in
                  let token_pair :=
                    Security.create_token_pair
                      (uuid_str (User.id user)) (Security.tenant_id payload)
                      codes now_access now_refresh in
                  ret (Some (token_response token_pair))
            end
      end
  end.

Definition register_tenant (faults : FaultPlan)
    (data : Schemas.TenantRegistration) (ids : FreshIds)
    (now_access now_refresh : datetime)
  : M (Tenant.t * User.t * Schemas.TokenResponse) :=
  let tenant_data :=
    {| Schemas.name := Schemas.tenant_name data;
       Schemas.slug := Schemas.reg_tenant_slug data;
       Schemas.contact_email := Schemas.reg_contact_email data |} in
  run tenant <- TenantService.create faults tenant_data
                  (tenant_uuid ids) (settings_uuid ids) in
  run created <- TenantService.create_schema faults tenant
                   (admin_role_uuid ids) (user_role_uuid ids) in
  let tenant := snd created in
  run _ <- statement faults BindSearchPath
             (set_search_path (Tenant.schema_name tenant ++ ", public")) in
  run user <- UserService.create_admin_user faults
                (Schemas.admin_email data) (Schemas.admin_username data)
                (Schemas.admin_password data)
                (Schemas.admin_first_name data) (Schemas.admin_last_name data)
                (admin_user_uuid ids) in
  (* roles=user.role_codes, on the object create_admin_user returned *)
  run codes <- UserService.role_codes_unloaded user in
  let token_pair :=
    Security.create_token_pair (uuid_str (User.id user)) (Tenant.slug tenant)
                               codes now_access now_refresh in
  ret (tenant, user, token_response token_pair).

End WithLibs.

End AuthService.

(** ** [api/v1/auth.py] *)

Module AuthApi.
Import Models Database.

(** [str(e)] of an exception, as the registration endpoint splices it
    into its error detail. *)
Definition exn_str (e : exn) : string :=
  match e with
  | JWTError => "JWTError"
  | TypeError => "TypeError"
  | ValidationError => "ValidationError"
  | ValueError => "ValueError"
  | IndexError => "IndexError"
  | MultipleResultsFound => "MultipleResultsFound"
  | IntegrityError => "IntegrityError"
  | ProgrammingError => "ProgrammingError"
  | OperationalError => "OperationalError"
  | DBAPIError => "DBAPIError"
  | MissingGreenlet => "MissingGreenlet"
  | HTTPException _ detail => detail
  end.

Definition INVALID_CREDENTIALS : exn :=
  HTTPException HTTP_401_UNAUTHORIZED "Invalid credentials or tenant".

Section WithLibs.
Context {L : External}.

(** The body of [POST /auth/login], on the session [get_db] provides.
    The endpoints take the search path the pooled connection was left
    with, [inherited], next to the database. *)
Definition login_body (request : Schemas.LoginRequest)
    (clock : UserService.AuthClock) (now_access now_refresh : datetime)
  : M Schemas.TokenResponse :=
  run result <- AuthService.login (Schemas.username request)
                  (Schemas.password request) (Schemas.tenant_slug request)
                  clock now_access now_refresh in
  match result with
  | None => raise INVALID_CREDENTIALS
  | Some (token_response, user, tenant) => ret token_response
  end.

Definition login (request : Schemas.LoginRequest)
    (clock : UserService.AuthClock) (now_access now_refresh : datetime)
    (inherited : list string) (db : Db) : Db * res Schemas.TokenResponse :=
  get_db (login_body request clock now_access now_refresh) inherited db.

Definition refresh_token (refresh_token : string)
    (now_lib now now_access now_refresh : datetime)
    (inherited : list string) (db : Db) : Db * res Schemas.TokenResponse :=
  get_db
    (run result <- AuthService.refresh_token refresh_token
                     now_lib now now_access now_refresh in
     match result with
     | None => raise (HTTPException HTTP_401_UNAUTHORIZED
                        "Invalid or expired refresh token")
     | Some r => ret r
     end) inherited db.

Definition register_tenant (faults : FaultPlan)
    (request : Schemas.TenantRegistration) (ids : AuthService.FreshIds)
    (now_access now_refresh : datetime)
    (inherited : list string) (db : Db)
  : Db * res (Tenant.t * User.t * Schemas.TokenResponse) :=
  get_db
    (try_except
       (AuthService.register_tenant faults request ids now_access now_refresh)
       (fun e => raise (HTTPException HTTP_400_BAD_REQUEST
                          ("Failed to create tenant: " ++ exn_str e))))
    inherited db.

End WithLibs.

End AuthApi.

(** ** A concrete instance of the libraries, for closed examples *)

Module Toy.

Definition alice_access : Claims :=
  {| c_sub := Some "u-alice"; c_tenant_id := Some "acme";
     c_roles := Some ["user"]; c_exp := Some 2000; c_type := Some "access" |}.

Definition alice_refresh : Claims :=
  {| c_sub := Some "u-alice"; c_tenant_id := Some "acme";
     c_roles := None; c_exp := Some 9000; c_type := Some "refresh" |}.

(** Passwords are "hashed" by a prefix; exactly two token strings carry
    a valid signature. *)
Definition libs : External :=
  {| pwd_verify := fun plain hashed => String.eqb hashed ("bcrypt$" ++ plain);
     pwd_hash := fun plain => "bcrypt$" ++ plain;
     jws_verify := fun token =>
       if String.eqb token "alice.access" then Some alice_access
       else if String.eqb token "alice.refresh" then Some alice_refresh
       else None;
     jwt_encode := fun claims =>
       default "" (c_sub claims) ++ "." ++ default "" (c_type claims);
     uuid_parse := fun text => Some text;
     uuid_str := fun u => u |}.


End Toy.

(** ** Tenant resolution, in the words of the specification

    The three sources of a tenant identifier and the rule "first match
    wins", written as the specification describes them, to be compared
    with [Tenancy._extract_tenant]. *)

Module TenancySpec.
Import Security Tenancy.

Fixpoint first_match (sources : list (option string)) : option string :=
  match sources with
  | [] => None
  | Some t :: _ => Some t
  | None :: rest => first_match rest
  end.

(** The bearer token of a request: what follows ["Bearer "] in the
    [Authorization] header, up to the next space. *)
Definition bearer_token (request : Request) : option string :=
  match headers request !! "Authorization" with
  | Some auth_header =>
      if String.prefix "Bearer " auth_header
      then split_char " " auth_header !! 1%nat
      else None
  | None => None
  end.

Definition nonempty (s : string) : option string :=
  if truthy s then Some s else None.

(** Source 1: the tenant claim of a present and decodable bearer token. *)
Definition token_source `{External} (request : Request) (now_lib : datetime)
  : res (option string) :=
  match bearer_token request with
  | None => Return None
  | Some token =>
      try payload <- decode_token token now_lib in
      Return (p ← payload; nonempty (tenant_id p))
  end.

(** Source 2: the explicit [X-Tenant-ID] header. *)
Definition header_source (request : Request) : option string :=
  h ← headers request !! "X-Tenant-ID"; nonempty h.

Definition leading_label (host : string) : string :=
  hd "" (split_char "." host).

Definition reserved (label : string) : bool :=
  bool_decide (label ∈ RESERVED_SUBDOMAINS).

(** Source 3 as the claim words it: the leading label of the host name
    unless it is reserved. *)
Definition claimed_host_source (request : Request) : option string :=
  host ← headers request !! "Host";
  label ← nonempty (leading_label host);
  if reserved label then None else Some label.

(** Source 3 as amended: the leading label of a host name that has more
    than one label, unless it is reserved. *)
Definition host_source (request : Request) : option string :=
  host ← headers request !! "Host";
  if contains_char "." host then
    label ← nonempty (leading_label host);
    if reserved label then None else Some label
  else None.

Definition claimed_resolution `{External} (request : Request) (now_lib : datetime)
  : res (option string) :=
  try from_token <- token_source request now_lib in
  Return (first_match [from_token; header_source request;
                       claimed_host_source request]).

Definition resolution `{External} (request : Request) (now_lib : datetime)
  : res (option string) :=
  try from_token <- token_source request now_lib in
  Return (first_match [from_token; header_source request; host_source request]).

(** Requests used in closed examples. *)
Definition localhost_request : Request :=
  {| url_path := "/api/v1/users"; headers := {[ "Host" := "localhost" ]} |}.

Definition asterisk_request : Request :=
  {| url_path := ""; headers := {[ "X-Tenant-ID" := "acme" ]} |}.

Definition failing_handler : RequestResponseEndpoint :=
  fun _ _ => Raise ValueError.

Definition echo_handler : RequestResponseEndpoint :=
  fun ctx _ => Return {| status_code := 200; body := default "" ctx |}.

End TenancySpec.

(** ** Observations on the stored identities *)

Module Guard.
Import Models Database.

(** The rows a lookup by user name, or by e-mail address, selects. *)
Definition by_username (p : Partition) (login : string) : list User.t :=
  List.filter (fun u => String.eqb (User.username u) login
                        && negb (User.is_deleted u)) (users p).

Definition by_email (p : Partition) (login : string) : list User.t :=
  List.filter (fun u => String.eqb (User.email u) login
                        && negb (User.is_deleted u)) (users p).

(** [login] names the identity [user]: the one non-deleted row with that
    user name or, when no row has that user name, with that e-mail
    address. *)
Definition resolves_to (p : Partition) (login : string) (user : User.t) : Prop :=
  by_username p login = [user]
  \/ (by_username p login = [] /\ by_email p login = [user]).


(** The row stored under a primary key in the schema [n] of [db]. *)
Definition stored_user (db : Db) (n : string) (user_id : UUID_t) : option User.t :=
  p ← schemas db !! n;
  List.find (fun u => String.eqb (User.id u) user_id) (users p).


Definition unlocked_at (now : datetime) (user : User.t) : Prop :=
  forall until, User.locked_until user = Some until -> until <= now.

(** The object [authenticate] returns after a successful check. *)
Definition after_success (now : datetime) (user : User.t) : User.t :=
  User.with_last_login (Some now)
    (User.with_locked_until None (User.with_failed_login_attempts 0 user)).

(** The row [authenticate] writes after a failed check that does not
    reach the threshold, and after one that does. *)
Definition after_failure (user : User.t) : User.t :=
  User.with_failed_login_attempts (User.failed_login_attempts user + 1) user.

Definition after_lockout (until : datetime) (user : User.t) : User.t :=
  User.with_locked_until (Some until) (after_failure user).

(** The session after the modified object [user'] has been flushed and
    the transaction committed. *)
Definition saved (s : Session) (n : string) (p : Partition) (user' : User.t)
  : Session :=
  let db :=
    {| tenants := tenants (working s);
       tenant_settings := tenant_settings (working s);
       schemas :=
         <[n := {| users := List.map (fun r => if String.eqb (User.id r) (User.id user')
                                               then user' else r) (users p);
                   roles := roles p;
                   user_roles := user_roles p |}]> (schemas (working s)) |} in
  {| committed := db; working := db; search_path := search_path s |}.

End Guard.

(** ** Observations on the tenant directory *)

Module Directory.
Import Models Database.

(** A [Tenant] row for [slug] is in the directory. *)
Definition has_slug (slug : string) (db : Db) : Prop :=
  exists t, In t (tenants db) /\ Tenant.slug t = slug.

(** The number of [Tenant] rows for [slug]. *)
Definition count_slug (slug : string) (db : Db) : nat :=
  length (List.filter (fun t => String.eqb (Tenant.slug t) slug) (tenants db)).

(** The same directory with the [schema_created] flag of every tenant
    chosen afresh by [f]. *)
Definition reflag_tenant (f : Tenant.t -> bool) (t : Tenant.t) : Tenant.t :=
  Tenant.with_schema_created (f t) t.

Definition reflag (f : Tenant.t -> bool) (db : Db) : Db :=
  {| tenants := List.map (reflag_tenant f) (tenants db);
     tenant_settings := tenant_settings db;
     schemas := schemas db |}.

Definition reflag_session (f : Tenant.t -> bool) (s : Session) : Session :=
  {| committed := reflag f (committed s);
     working := reflag f (working s);
     search_path := search_path s |}.

Definition res_map {A B : Type} (g : A -> B) (r : res A) : res B :=
  match r with
  | Return a => Return (g a)
  | Raise e => Raise e
  end.

(** [reflag] on the result of [AuthService.login], which carries the
    [Tenant] object. *)
Definition login_result_reflag (f : Tenant.t -> bool)
    (r : option (Schemas.TokenResponse * User.t * Tenant.t))
  : option (Schemas.TokenResponse * User.t * Tenant.t) :=
  fmap (fun '(resp, user, tenant) => (resp, user, reflag_tenant f tenant)) r.

(** [m1] on a reflagged session does what [m2] does on the session
    itself, up to the flags in the session and [g] on the result. *)
Definition flag_blind {A : Type} (f : Tenant.t -> bool) (g : A -> A)
    (m1 m2 : M A) : Prop :=
  forall s, m1 (reflag_session f s)
            = (reflag_session f (fst (m2 s)), res_map g (snd (m2 s))).

(** A property of sessions that a computation never breaks. *)
Definition preserves {A : Type} (I : Session -> Prop) (m : M A) : Prop :=
  forall s, I s -> I (fst (m s)).

(** The row for [slug] is both committed and visible. *)
Definition slug_durable (slug : string) (s : Session) : Prop :=
  has_slug slug (committed s) /\ has_slug slug (working s).

End Directory.


(** ** Data for closed examples *)

Module Fixtures.
Import Models Database.

(** 2024-01-01T12:45:00Z and 2024-01-01T12:10:00Z, in microseconds. *)
Definition quarter_to_one : datetime := 1704113100 * Datetime.SECOND.
Definition ten_past_twelve : datetime := 1704111000 * Datetime.SECOND.

(** Alice: active, four failed attempts on record. *)
Definition alice : User.t :=
  {| User.id := "u-alice"; User.email := "alice@acme.test";
     User.username := "alice"; User.password_hash := "bcrypt$correct horse";
     User.first_name := "Alice"; User.last_name := "A";
     User.is_active := true; User.is_verified := true;
     User.is_superuser := false; User.is_deleted := false;
     User.last_login := None; User.failed_login_attempts := 4;
     User.locked_until := None |}.

(** Bob: deactivated, with a lockout that ended long ago. *)
Definition bob : User.t :=
  {| User.id := "u-bob"; User.email := "bob@acme.test";
     User.username := "bob"; User.password_hash := "bcrypt$battery staple";
     User.first_name := "Bob"; User.last_name := "B";
     User.is_active := false; User.is_verified := true;
     User.is_superuser := false; User.is_deleted := false;
     User.last_login := None; User.failed_login_attempts := 5;
     User.locked_until := Some (1700000000 * Datetime.SECOND) |}.

(** Carol: active, locked until 13:00, five failed attempts. *)
Definition carol : User.t :=
  {| User.id := "u-carol"; User.email := "carol@acme.test";
     User.username := "carol"; User.password_hash := "bcrypt$tr0ub4dor";
     User.first_name := "Carol"; User.last_name := "C";
     User.is_active := true; User.is_verified := true;
     User.is_superuser := false; User.is_deleted := false;
     User.last_login := None; User.failed_login_attempts := 5;
     User.locked_until := Some (1704114000 * Datetime.SECOND) |}.

(** Dave: active, no failed attempt on record. *)
Definition dave : User.t :=
  {| User.id := "u-dave"; User.email := "dave@acme.test";
     User.username := "dave"; User.password_hash := "bcrypt$hunter2";
     User.first_name := "Dave"; User.last_name := "D";
     User.is_active := true; User.is_verified := true;
     User.is_superuser := false; User.is_deleted := false;
     User.last_login := None; User.failed_login_attempts := 0;
     User.locked_until := None |}.

Definition acme_users : Partition :=
  {| users := [alice; bob; carol; dave]; roles := []; user_roles := [] |}.

Definition acme : Tenant.t :=
  {| Tenant.id := "t-acme"; Tenant.name := "Acme"; Tenant.slug := "acme";
     Tenant.is_active := true; Tenant.is_verified := false;
     Tenant.contact_email := "ops@acme.test";
     Tenant.schema_name := "tenant_acme"; Tenant.schema_created := true |}.

(** A provisioned tenant ["acme"]. *)
Definition acme_db : Db :=
  {| tenants := [acme];
     tenant_settings := [ {| TenantSettings.id := "s-acme";
                             TenantSettings.tenant_id := "t-acme" |} ];
     schemas := {[ "tenant_acme" := acme_users ]} |}.

(** 2024-01-01T13:30:00Z, half an hour after Carol's lockout ends. *)
Definition half_past_one : datetime := 1704115800 * Datetime.SECOND.

(** The search path of a new connection. *)
Definition new_connection : list string := ["public"].

Definition acme_session : Session :=
  {| committed := acme_db; working := acme_db;
     search_path := ["tenant_acme"; "public"] |}.

(** A fresh installation: no tenant, no tenant schema. *)
Definition fresh_db : Db :=
  {| tenants := []; tenant_settings := []; schemas := ∅ |}.

Definition fresh_ids : AuthService.FreshIds :=
  {| AuthService.tenant_uuid := "t-new"; AuthService.settings_uuid := "s-new";
     AuthService.admin_role_uuid := "r-admin";
     AuthService.user_role_uuid := "r-user";
     AuthService.admin_user_uuid := "u-admin" |}.

Definition registration (slug : string) : Schemas.TenantRegistration :=
  {| Schemas.tenant_name := "New Tenant";
     Schemas.reg_tenant_slug := slug;
     Schemas.reg_contact_email := "ops@new.test";
     Schemas.admin_email := "root@new.test";
     Schemas.admin_username := "root";
     Schemas.admin_password := "Sup3rSecret";
     Schemas.admin_first_name := "Root";
     Schemas.admin_last_name := "Admin" |}.

(** The row [TenantService.create] inserts for [registration slug]. *)
Definition new_tenant (slug : string) : Tenant.t :=
  {| Tenant.id := "t-new"; Tenant.name := "New Tenant"; Tenant.slug := slug;
     Tenant.is_active := true; Tenant.is_verified := false;
     Tenant.contact_email := "ops@new.test";
     Tenant.schema_name := "tenant_" ++ slug; Tenant.schema_created := false |}.

(** A storage failure while the roles are seeded, and one while the
    administrator is inserted. *)
Definition fail_seeding : FaultPlan :=
  fun st => match st with SeedRoles => true | _ => false end.

Definition fail_admin_insert : FaultPlan :=
  fun st => match st with InsertAdminUser => true | _ => false end.

End Fixtures.

(** ** Tenant binding: the rest of [core/tenancy.py], [core/database.py]
    and [core/dependencies.py] *)

Module TenantBinding.
Import Database.

(** [a or b] on two [Optional[str]]: [a] when it is truthy, [b]
    otherwise. *)
Definition or_else (a b : option string) : option string :=
  if truthy_opt a then a else b.

(** [getattr(request.state, "tenant_id", None)]. *)
Definition state_tenant_id (state : Tenancy.RequestState) : option string :=
  default None state.

(** [core/database.py]. *)
Definition set_tenant_schema (tenant_id : string) : M unit :=
  let schema_name := Settings.TENANT_SCHEMA_PREFIX ++ tenant_id in
  set_search_path (schema_name ++ ", public").

Definition reset_schema : M unit := set_search_path "public".

(** [create_tenant_schema] creates the schema and no table. The model
    has no schema without tables: the new schema is entered with empty
    tables, which is the engine's state once the tables are created and
    differs from it for a reader of the tenant tables before that. *)
Definition create_tenant_schema (tenant_id : string) : M unit :=
  let schema_name := Settings.TENANT_SCHEMA_PREFIX ++ tenant_id in
  run _ <- TenantService.create_schema_if_not_exists schema_name in
  commit.

(** [DROP SCHEMA IF EXISTS <text>], the text being what the f-string put
    behind the keywords, [CASCADE] included: a list of names, then
    [CASCADE] unless a comment in the spliced name swallowed it. Without
    [CASCADE] the engine refuses to drop a schema that holds tables. *)
Definition drop_targets (ts : list token) : option (list string * bool) :=
  match List.rev ts with
  | TName last :: front =>
      if String.eqb last "cascade"
      then match names_of (List.rev front) with
           | Some names => Some (names, true)
           | None => None
           end
      else match names_of ts with
           | Some names => Some (names, false)
           | None => None
           end
  | _ => None
  end.

Definition drop_schema_if_exists (text : string) : M unit :=
  match drop_targets (sql_tokens text) with
  | Some (names, cascade) =>
      run db <- get_working in
      if negb cascade
         && existsb (fun n => bool_decide (is_Some (schemas db !! n))) names
      then raise DBAPIError
      else
        put_working {| tenants := tenants db;
                       tenant_settings := tenant_settings db;
                       schemas := foldr delete (schemas db) names |}
  | None => raise ProgrammingError
  end.

Definition drop_tenant_schema (tenant_id : string) : M unit :=
  let schema_name := Settings.TENANT_SCHEMA_PREFIX ++ tenant_id in
  run _ <- drop_schema_if_exists (schema_name ++ " CASCADE") in
  commit.

(** [get_db_context]: the body runs in a session that is committed when
    the body returns and rolled back when it raises. *)
Definition get_db_context {A : Type} (body : M A) (inherited : list string)
    (db : Db) : Db * res A :=
  let '(s, r) :=
    try_except (run a <- body in run _ <- commit in ret a)
               (fun e => run _ <- rollback in raise e)
               (open_session inherited db) in
  (close s, r).

(** [core/tenancy.py]. *)
Definition get_current_tenant (ctx : option string) : option string := ctx.

Definition set_tenant_search_path (tenant_id : string) : M unit :=
  let schema_name := Settings.TENANT_SCHEMA_PREFIX ++ tenant_id in
  set_search_path (schema_name ++ ", public").

Definition get_tenant_session (tenant_id ctx : option string) : M unit :=
  let tid := or_else tenant_id (get_current_tenant ctx) in
  if truthy_opt tid then set_tenant_search_path (default "" tid) else ret tt.

Definition require_tenant (state : Tenancy.RequestState) (ctx : option string)
  : res string :=
  let tenant_id := or_else (state_tenant_id state) (get_current_tenant ctx) in
  if negb (truthy_opt tenant_id)
  then Raise (HTTPException HTTP_400_BAD_REQUEST "Tenant ID is required")
  else Return (default "" tenant_id).

(** [core/dependencies.py]. *)
Definition get_tenant_db (state : Tenancy.RequestState) (ctx : option string)
  : M unit :=
  let tenant_id := or_else (state_tenant_id state) (get_current_tenant ctx) in
  if truthy_opt tenant_id then set_tenant_schema (default "" tenant_id)
  else ret tt.

(** [api/v1/users.py]: the session dependency of the user routes, bound
    by the tenant claim of the caller's token. *)
Definition get_tenant_db_session (current_user : Security.TokenPayload) : M unit :=
  if truthy (Security.tenant_id current_user) then
    let schema_name :=
      Settings.TENANT_SCHEMA_PREFIX ++ Security.tenant_id current_user in
    set_search_path (schema_name ++ ", public")
  else ret tt.

(** An endpoint that declares [Depends(require_tenant)], and one that
    declares the session dependency [TenantDB], as the application behind
    the middleware: the dependency is resolved from the request state and
    the context variable the middleware left, then the endpoint runs. *)
Definition behind_require_tenant (endpoint : string -> res Tenancy.Response)
  : Tenancy.RequestResponseEndpoint :=
  fun ctx state =>
    try tenant_id <- require_tenant state ctx in endpoint tenant_id.

Definition behind_tenant_db (endpoint : M Tenancy.Response)
    (inherited : list string) (db : Db)
  : Tenancy.RequestResponseEndpoint :=
  fun ctx state =>
    snd (get_db (run _ <- get_tenant_db state ctx in endpoint) inherited db).

End TenantBinding.

(** ** Account maintenance: the rest of [services/user_service.py] and
    [services/tenant_service.py] that works on the modelled columns *)

Module Account.
Import Models Database.

Definition with_password_hash (h : string) (u : User.t) : User.t :=
  {| User.id := User.id u; User.email := User.email u;
     User.username := User.username u; User.password_hash := h;
     User.first_name := User.first_name u; User.last_name := User.last_name u;
     User.is_active := User.is_active u; User.is_verified := User.is_verified u;
     User.is_superuser := User.is_superuser u;
     User.is_deleted := User.is_deleted u; User.last_login := User.last_login u;
     User.failed_login_attempts := User.failed_login_attempts u;
     User.locked_until := User.locked_until u |}.

Definition with_is_active (b : bool) (x : Tenant.t) : Tenant.t :=
  {| Tenant.id := Tenant.id x; Tenant.name := Tenant.name x;
     Tenant.slug := Tenant.slug x; Tenant.is_active := b;
     Tenant.is_verified := Tenant.is_verified x;
     Tenant.contact_email := Tenant.contact_email x;
     Tenant.schema_name := Tenant.schema_name x;
     Tenant.schema_created := Tenant.schema_created x |}.

(** The rows a lookup by primary key selects. *)
Definition by_id (p : Partition) (user_id : UUID_t) : list User.t :=
  List.filter (fun u => String.eqb (User.id u) user_id
                        && negb (User.is_deleted u)) (users p).

(** The primary key of [users]: no two rows share an [id]. *)
Definition primary_key (p : Partition) : Prop :=
  List.NoDup (List.map User.id (users p)).

Definition tenants_primary_key (db : Db) : Prop :=
  List.NoDup (List.map Tenant.id (tenants db)).


Section WithLibs.
Context {L : External}.

(** [UserService.change_password]. *)
Definition change_password (user_id : UUID_t)
    (current_password new_password : string) : M bool :=
  run user <- UserService.get_by_id user_id in
  match user with
  | None => ret false
  | Some user =>
      if negb (Security.verify_password current_password (User.password_hash user))
      then ret false
      else
        let user' := with_password_hash (Security.get_password_hash new_password)
                                        user in
        run _ <- UserService.flush_user user user' in
        run _ <- commit in
        ret true
  end.


(** [POST /auth/change-password] of [api/v1/auth.py], on the session
    [get_db] provides; [current_user] is the verified token. *)
Definition change_password_endpoint (current_user : Security.TokenPayload)
    (current_password new_password : string)
    (inherited : list string) (db : Db) : Db * res string :=
  get_db
    (run _ <- (if truthy (Security.tenant_id current_user) then
                 let schema_name :=
                   Settings.TENANT_SCHEMA_PREFIX
                   ++ Security.tenant_id current_user in
                 set_search_path (schema_name ++ ", public")
               else ret tt) in
     run user_id <- lift (match uuid_parse (Security.sub current_user) with
                          | Some u => Return u
                          | None => Raise ValueError
                          end) in
     run success <- change_password user_id current_password new_password in
     if negb success
     then raise (HTTPException HTTP_400_BAD_REQUEST "Invalid current password")
     else ret "Password changed successfully") inherited db.

End WithLibs.

(** [TenantService.get_by_id] and [TenantService.delete]. *)
Definition tenant_by_id (tenant_id : UUID_t) : M (option Tenant.t) :=
  run db <- get_working in
  lift (scalar_one_or_none
          (List.filter (fun t => String.eqb (Tenant.id t) tenant_id) (tenants db))).

Definition delete_tenant (tenant_id : UUID_t) : M bool :=
  run tenant <- tenant_by_id tenant_id in
  match tenant with
  | None => ret false
  | Some tenant =>
      let tenant := with_is_active false tenant in
      run _ <- TenantService.flush_tenant tenant in
      run _ <- commit in
      ret true
  end.

End Account.

(** ** [schemas/common.py] *)

Module Common.

(** [PaginationParams.offset] and [PaginationParams.limit]. *)
Definition offset (page page_size : Z) : Z := (page - 1) * page_size.
Definition limit (page_size : Z) : Z := page_size.

(** The page count [PaginatedResponse.create] computes; [//] is floor
    division. *)
Definition pages (total page_size : Z) : Z :=
  if 0 <? page_size then (total + page_size - 1) / page_size else 0.

End Common.

(** ** A second instance of the libraries, whose token codec reads back
    the tokens it mints for Alice at 12:10 *)

Module ToyCodec.

Definition minted_access : Claims :=
  {| c_sub := Some "u-alice"; c_tenant_id := Some "acme";
     c_roles := Some ["user"]; c_exp := Some 1704112800;
     c_type := Some "access" |}.

Definition minted_refresh : Claims :=
  {| c_sub := Some "u-alice"; c_tenant_id := Some "acme";
     c_roles := None; c_exp := Some 1704715800;
     c_type := Some "refresh" |}.

Definition libs : External :=
  {| pwd_verify := fun plain hashed => String.eqb hashed ("bcrypt$" ++ plain);
     pwd_hash := fun plain => "bcrypt$" ++ plain;
     jws_verify := fun token =>
       if String.eqb token "u-alice.access" then Some minted_access
       else if String.eqb token "u-alice.refresh" then Some minted_refresh
       else None;
     jwt_encode := fun claims =>
       default "" (c_sub claims) ++ "." ++ default "" (c_type claims);
     uuid_parse := fun text => Some text;
     uuid_str := fun u => u |}.

End ToyCodec.

(** ** A third instance of the libraries, with signed tokens that did
    not come out of this application, and an installation on which two
    tenants share one schema *)

Module ToyForeign.
Import Models Database.

(** A token without a [type] claim, and one without [sub]. *)
Definition untyped_claims : Claims :=
  {| c_sub := Some "u-alice"; c_tenant_id := Some "acme";
     c_roles := Some ["user"]; c_exp := Some 2000; c_type := None |}.

Definition nameless_claims : Claims :=
  {| c_sub := None; c_tenant_id := Some "acme";
     c_roles := Some ["user"]; c_exp := Some 2000;
     c_type := Some "access" |}.

(** The slug ["acme"] followed by a line feed: [validate_slug] accepts
    it, it differs from ["acme"], and the statements that splice
    [tenant_] and this slug name the schema [tenant_acme]. *)
Definition shadow_slug : string := "acme" ++ String "010"%char EmptyString.

(** The primary keys drawn while ["acme"] is registered, and while the
    second slug is. *)
Definition acme_ids : AuthService.FreshIds :=
  {| AuthService.tenant_uuid := "0b8f6c1e-2d47-4f3a-9c55-7e1a2b3c4d01";
     AuthService.settings_uuid := "0b8f6c1e-2d47-4f3a-9c55-7e1a2b3c4d02";
     AuthService.admin_role_uuid := "0b8f6c1e-2d47-4f3a-9c55-7e1a2b3c4d03";
     AuthService.user_role_uuid := "0b8f6c1e-2d47-4f3a-9c55-7e1a2b3c4d04";
     AuthService.admin_user_uuid := "0b8f6c1e-2d47-4f3a-9c55-7e1a2b3c4d05" |}.

Definition shadow_ids : AuthService.FreshIds :=
  {| AuthService.tenant_uuid := "0b8f6c1e-2d47-4f3a-9c55-7e1a2b3c4d11";
     AuthService.settings_uuid := "0b8f6c1e-2d47-4f3a-9c55-7e1a2b3c4d12";
     AuthService.admin_role_uuid := "0b8f6c1e-2d47-4f3a-9c55-7e1a2b3c4d13";
     AuthService.user_role_uuid := "0b8f6c1e-2d47-4f3a-9c55-7e1a2b3c4d14";
     AuthService.admin_user_uuid := "0b8f6c1e-2d47-4f3a-9c55-7e1a2b3c4d15" |}.

(** A refresh token that names the second slug and the administrator of
    ["acme"]. *)
Definition shadow_refresh : Claims :=
  {| c_sub := Some (AuthService.admin_user_uuid acme_ids);
     c_tenant_id := Some shadow_slug;
     c_roles := None; c_exp := Some 9000; c_type := Some "refresh" |}.

Definition libs : External :=
  {| pwd_verify := fun plain hashed => String.eqb hashed ("bcrypt$" ++ plain);
     pwd_hash := fun plain => "bcrypt$" ++ plain;
     jws_verify := fun token =>
       if String.eqb token "alice.untyped" then Some untyped_claims
       else if String.eqb token "alice.nameless" then Some nameless_claims
       else if String.eqb token "root.refresh" then Some shadow_refresh
       else None;
     jwt_encode := fun claims =>
       default "" (c_sub claims) ++ "." ++ default "" (c_type claims);
     uuid_parse := fun text => Some text;
     uuid_str := fun u => u |}.

(** A fresh installation after the registration of ["acme"] with no
    storage fault, and then after the registration of the second slug
    with a storage failure while its roles are seeded. *)
Definition acme_registered : Db * res (Tenant.t * User.t * Schemas.TokenResponse) :=
  AuthApi.register_tenant (L := libs) no_faults (Fixtures.registration "acme")
    acme_ids 0 0 Fixtures.new_connection Fixtures.fresh_db.

Definition shadow_registered : Db * res (Tenant.t * User.t * Schemas.TokenResponse) :=
  AuthApi.register_tenant (L := libs) Fixtures.fail_seeding
    (Fixtures.registration shadow_slug)
    shadow_ids 0 0 Fixtures.new_connection (fst acme_registered).

Definition shared_db : Db := fst shadow_registered.

End ToyForeign.

(** * Properties *)

(** ** Names spliced into statements *)

Module DatabaseProps.
Import Database.

Lemma scan_cons (st : scan_state) (c : ascii) (rest : string) :
  scan st (String c rest)
  = (fst (scan_step st c) ++ scan (snd (scan_step st c)) rest)%list.
Proof. cbn [scan]. destruct (scan_step st c). reflexivity. Qed.

Lemma app_cons_last (text : string) (c : ascii) (s : string) :
  (text ++ String c EmptyString) ++ s = text ++ String c s.
Proof.
  induction text as [|d text IH]; [reflexivity|].
  change (String d text ++ String c EmptyString)
    with (String d (text ++ String c EmptyString)).
  change (String d (text ++ String c EmptyString) ++ s)
    with (String d ((text ++ String c EmptyString) ++ s)).
  change (String d text ++ String c s) with (String d (text ++ String c s)).
  now rewrite IH.
Qed.

Lemma app_empty_r (text : string) : text ++ EmptyString = text.
Proof.
  induction text as [|d text IH]; [reflexivity|].
  change (String d text ++ EmptyString) with (String d (text ++ EmptyString)).
  now rewrite IH.
Qed.

(** Inside a name, identifier characters are taken up to the first
    character that is none. *)
Lemma scan_in_name (body rest : string) :
  all_chars is_identifier_char body = true ->
  forall text, scan (InName text) (body ++ rest) = scan (InName (text ++ body)) rest.
Proof.
  induction body as [|c body IH]; intros Hbody text.
  - change (EmptyString ++ rest) with rest. now rewrite app_empty_r.
  - cbn [all_chars] in Hbody. apply andb_true_iff in Hbody as [Hc Hbody].
    change (String c body ++ rest) with (String c (body ++ rest)).
    rewrite scan_cons. cbn [scan_step]. rewrite Hc. cbn [fst snd app].
    rewrite (IH Hbody). now rewrite app_cons_last.
Qed.

Lemma scan_name_ends (text : string) (c : ascii) (rest : string) :
  is_identifier_char c = false ->
  scan (InName text) (String c rest) = TName (sql_fold text) :: scan Idle (String c rest).
Proof.
  intros Hc. rewrite !scan_cons. cbn [scan_step]. rewrite Hc.
  destruct (scan_idle c) as [ts st']. reflexivity.
Qed.

Lemma identifier_start_idle (c : ascii) :
  (is_letter c || Ascii.eqb c "_") = true ->
  scan_idle c = ([], InName (String c EmptyString)).
Proof.
  intros Hc. unfold scan_idle. rewrite Hc.
  replace (is_sql_space c) with false; [reflexivity|].
  symmetry. unfold is_sql_space, is_letter in *.
  destruct (Ascii.eqb c "_") eqn:Hu.
  - apply Ascii.eqb_eq in Hu. subst c. reflexivity.
  - rewrite orb_false_r in Hc.
    repeat match goal with
           | |- context [(N_of_ascii c =? ?k)%N] =>
               destruct (N.eqb_spec (N_of_ascii c) k) as [Heq|_];
               [rewrite Heq in Hc; discriminate Hc|]
           end.
    reflexivity.
Qed.

(** A bare identifier followed by text that does not continue it is read
    as one name, the one the catalog holds for it. *)
Lemma sql_tokens_identifier (name rest : string) :
  sql_identifier name = true ->
  match rest with
  | EmptyString => True
  | String c _ => is_identifier_char c = false
  end ->
  sql_tokens (name ++ rest) = TName (sql_fold name) :: sql_tokens rest.
Proof.
  destruct name as [|c body]; [discriminate|]. cbn [sql_identifier].
  intros Hname Hrest. apply andb_true_iff in Hname as [Hc Hbody].
  unfold sql_tokens.
  change (String c body ++ rest) with (String c (body ++ rest)).
  rewrite scan_cons. cbn [scan_step]. rewrite (identifier_start_idle c Hc).
  cbn [fst snd app]. rewrite (scan_in_name body rest Hbody).
  change (String c EmptyString ++ body) with (String c body).
  destruct rest as [|d rest]; [reflexivity|].
  now apply scan_name_ends.
Qed.

(** The three statements the services build around a schema name that is
    a bare identifier. *)
Lemma names_of_schema_then_public (name : string) :
  sql_identifier name = true ->
  names_of (sql_tokens (name ++ ", public")) = Some [sql_fold name; "public"].
Proof.
  intros H. rewrite (sql_tokens_identifier name ", public" H); reflexivity.
Qed.

Lemma names_of_schema (name : string) :
  sql_identifier name = true ->
  names_of (sql_tokens name) = Some [sql_fold name].
Proof.
  intros H. rewrite <- (app_empty_r name) at 1.
  rewrite (sql_tokens_identifier name EmptyString H); [reflexivity|exact I].
Qed.

Lemma sql_tokens_schema (name : string) :
  sql_identifier name = true -> sql_tokens name = [TName (sql_fold name)].
Proof.
  intros H. rewrite <- (app_empty_r name) at 1.
  rewrite (sql_tokens_identifier name EmptyString H); [reflexivity|exact I].
Qed.

Lemma set_search_path_bound (name : string) (s : Session) :
  sql_identifier name = true ->
  set_search_path (name ++ ", public") s
  = ({| committed := committed s; working := working s;
        search_path := [sql_fold name; "public"] |}, Return tt).
Proof.
  intros H. unfold set_search_path.
  now rewrite (names_of_schema_then_public name H).
Qed.

End DatabaseProps.

(** ** Token verification *)

Module SecurityProps.
Import Security.

Section WithLibs.
Context {L : External}.



(** With a clock that does not run backwards, the library's expiry
    test in whole seconds never rejects a token that the test of
    [verify_token] would accept. *)
Lemma library_expiry_subsumed (e : Z) (now_lib now : datetime) :
  now_lib <= now -> ~ now > e * Datetime.SECOND ->
  (e <? Datetime.timegm now_lib) = false.
Proof.
  intros Hmono Hfresh. apply Z.ltb_ge.
  unfold Datetime.timegm, Datetime.SECOND in *.
  apply Z.div_le_upper_bound; lia.
Qed.

Lemma decode_token_signed (token : string) (now_lib : datetime)
    (claims : Claims) (e : Z) :
  jws_verify token = Some claims -> c_exp claims = Some e ->
  (e <? Datetime.timegm now_lib) = false ->
  decode_token token now_lib
  = try p <- build_payload claims in Return (Some p).
Proof.
  intros Hsig Hexp Hlib. unfold decode_token, jwt_decode.
  rewrite Hsig, Hexp, Hlib. reflexivity.
Qed.







End WithLibs.

End SecurityProps.



(** ** Role authorization *)

Module DependenciesProps.
Import Security Dependencies.

Lemma forbidden_not_unauthenticated {A : Type} (r : res A) :
  is_forbidden r -> ~ is_unauthenticated r.
Proof.
  intros [d1 H1] [d2 H2]. rewrite H1 in H2. inversion H2.
Qed.

(** The role check has two outcomes only: the token is let through, or
    the request is forbidden. *)
Lemma require_roles_outcomes (required_roles : list string) (token : TokenPayload) :
  require_roles required_roles token = Return token
  \/ is_forbidden (require_roles required_roles token).
Proof.
  unfold require_roles, is_forbidden.
  repeat case_bool_decide; eauto.
Qed.

Lemma require_roles_allows_iff (required_roles : list string) (token : TokenPayload) :
  require_roles required_roles token = Return token
  <-> "admin" ∈ roles token
      \/ exists r, r ∈ required_roles /\ r ∈ roles token.
Proof.
  unfold require_roles.
  case_bool_decide as Hadmin.
  - split; [|reflexivity]. intros _. left. set_solver.
  - case_bool_decide as Hmeet.
    + split; [discriminate|].
      intros [Ha|(r & Hr1 & Hr2)]; [set_solver|].
      exfalso. assert (r ∈ (∅ : gset string)) as Hin; [|set_solver].
      rewrite <- Hmeet. set_solver.
    + split; [|reflexivity]. intros _. right.
      apply set_choose_L in Hmeet as [r Hr]. exists r. set_solver.
Qed.

Section WithLibs.
Context {L : External}.

(** C5. For every verified token and every required role set: a token
    holding ["admin"] is allowed whatever is required; in general the
    check allows exactly when the token holds ["admin"] or shares a role
    with the required set; anything else is a 403 Forbidden. Without a
    token, or with one that [verify_token] rejects, the dependency chain
    ends in a 401 instead, which is never the 403 of a denial. *)
Theorem require_roles_authorization
    (required_roles : list string) (token : TokenPayload) :
  ("admin" ∈ roles token -> require_roles required_roles token = Return token)
  /\ (require_roles required_roles token = Return token
      <-> "admin" ∈ roles token
          \/ exists r, r ∈ required_roles /\ r ∈ roles token)
  /\ (require_roles required_roles token <> Return token ->
      is_forbidden (require_roles required_roles token))
  /\ (forall credentials now_lib now,
         (credentials = None
          \/ (exists t, credentials = Some t
                        /\ verify_token t "access" now_lib now = Return None)) ->
         is_unauthenticated
           (depends_require_roles required_roles credentials now_lib now)
         /\ ~ is_forbidden
               (depends_require_roles required_roles credentials now_lib now))
  /\ (forall t now_lib now,
         verify_token t "access" now_lib now = Return (Some token) ->
         depends_require_roles required_roles (Some t) now_lib now
         = require_roles required_roles token).
Proof.
  split; [|split; [|split; [|split]]].
  - intros Hadmin. apply require_roles_allows_iff. now left.
  - apply require_roles_allows_iff.
  - intros Hdeny.
    destruct (require_roles_outcomes required_roles token); [contradiction|assumption].
  - intros credentials now_lib now Hcred.
    assert (Hun : is_unauthenticated
                    (depends_require_roles required_roles credentials now_lib now)).
    { unfold depends_require_roles, get_current_user_token, is_unauthenticated.
      destruct Hcred as [->|(t & -> & Hv)].
      - simpl. eauto.
      - rewrite Hv. simpl. eauto. }
    split; [exact Hun|].
    intros Hforb. exact (forbidden_not_unauthenticated _ Hforb Hun).
  - intros t now_lib now Hv.
    unfold depends_require_roles, get_current_user_token.
    rewrite Hv. reflexivity.
Qed.

End WithLibs.

End DependenciesProps.

(** ** Tenant resolution and the tenant-context middleware *)

Module TenancyProps.
Import Security Tenancy TenancySpec.

Lemma split_char_cons (sep : ascii) (s : string) :
  exists piece rest, split_char sep s = piece :: rest.
Proof.
  induction s as [|c s IH]; simpl.
  - eauto.
  - destruct (Ascii.eqb c sep); [eauto|].
    destruct IH as (piece & rest & ->). eauto.
Qed.

Lemma index_first_piece (sep : ascii) (s : string) :
  index (split_char sep s) 0 = Return (hd "" (split_char sep s)).
Proof.
  destruct (split_char_cons sep s) as (piece & rest & ->). reflexivity.
Qed.

Lemma prefix_cons_inv (a : ascii) (s1 s2 : string) :
  String.prefix (String a s1) s2 = true ->
  exists s2', s2 = String a s2' /\ String.prefix s1 s2' = true.
Proof.
  destruct s2 as [|b s2]; cbn [String.prefix]; [discriminate|].
  destruct (ascii_dec a b) as [<-|]; [eauto|discriminate].
Qed.

(** A header that starts with ["Bearer "] is not empty and splits into
    at least two pieces. *)
Lemma bearer_prefix_inv (auth_header : string) :
  String.prefix "Bearer " auth_header = true ->
  exists rest, auth_header = "Bearer " ++ rest.
Proof.
  intros H.
  do 7 (apply prefix_cons_inv in H as (? & -> & H)).
  eexists. reflexivity.
Qed.

Lemma bearer_token_present (auth_header : string) :
  String.prefix "Bearer " auth_header = true ->
  truthy auth_header = true
  /\ exists token, split_char " " auth_header !! 1%nat = Some token
                   /\ index (split_char " " auth_header) 1 = Return token.
Proof.
  intros H. apply bearer_prefix_inv in H as [rest ->].
  split; [reflexivity|].
  destruct (split_char_cons " " rest) as (piece & more & Hsplit).
  exists piece. unfold index. simpl. change ("" +:+ rest) with rest.
  rewrite Hsplit. simpl. auto.
Qed.

Section WithLibs.
Context {L : External}.

Lemma tenant_from_jwt_token_source (request : Request) (now_lib : datetime) :
  tenant_from_jwt request now_lib = token_source request now_lib.
Proof.
  unfold tenant_from_jwt, token_source, bearer_token.
  destruct (headers request !! "Authorization") as [auth_header|]; [|reflexivity].
  destruct (String.prefix "Bearer " auth_header) eqn:Hpre.
  - destruct (bearer_token_present _ Hpre) as (Htruthy & token & Hlook & Hidx).
    rewrite Htruthy, Hlook, Hidx. simpl.
    destruct (decode_token token now_lib) as [[p|]|e]; simpl; try reflexivity.
    unfold nonempty. destruct (truthy (tenant_id p)); reflexivity.
  - rewrite andb_false_r. reflexivity.
Qed.

Lemma extract_tenant_resolution (request : Request) (now_lib : datetime) :
  _extract_tenant request now_lib = resolution request now_lib.
Proof.
  unfold _extract_tenant, resolution.
  rewrite tenant_from_jwt_token_source.
  destruct (token_source request now_lib) as [[t|]|e]; simpl; try reflexivity.
  unfold header_source, host_source.
  destruct (headers request !! "X-Tenant-ID") as [h|]; simpl.
  - unfold nonempty. destruct (truthy h); simpl; [reflexivity|].
    destruct (headers request !! "Host") as [host|]; simpl; [|reflexivity].
    destruct (contains_char "." host); [|reflexivity].
    rewrite index_first_piece. simpl. unfold leading_label, reserved.
    destruct (truthy (hd "" (split_char "." host))); simpl; [|reflexivity].
    case_bool_decide; reflexivity.
  - destruct (headers request !! "Host") as [host|]; simpl; [|reflexivity].
    destruct (contains_char "." host); [|reflexivity].
    rewrite index_first_piece. simpl. unfold leading_label, reserved, nonempty.
    destruct (truthy (hd "" (split_char "." host))); simpl; [|reflexivity].
    case_bool_decide; reflexivity.
Qed.

(** C7, as amended. [_extract_tenant] tries, in this order and with the
    first match winning, the tenant claim of a present and decodable
    bearer token, the [X-Tenant-ID] header, and the leading label of a
    [Host] name that contains a dot, unless that label is reserved; when
    none matches the result is [None]. An exception leaves it only when
    decoding the bearer token raises one. *)
Theorem extract_tenant_first_match (request : Request) (now_lib : datetime) :
  _extract_tenant request now_lib = resolution request now_lib
  /\ (forall from_token,
         token_source request now_lib = Return from_token ->
         _extract_tenant request now_lib
         = Return (first_match [from_token; header_source request;
                                host_source request]))
  /\ (forall e,
         _extract_tenant request now_lib = Raise e ->
         exists token, bearer_token request = Some token
                       /\ decode_token token now_lib = Raise e).
Proof.
  split; [apply extract_tenant_resolution|split].
  - intros from_token Hsrc. rewrite extract_tenant_resolution.
    unfold resolution. rewrite Hsrc. reflexivity.
  - intros e. rewrite extract_tenant_resolution. unfold resolution, token_source.
    destruct (bearer_token request) as [token|]; simpl; [|discriminate].
    destruct (decode_token token now_lib) as [payload|e'] eqn:Hdec; simpl;
      [discriminate|].
    intros H; inversion H; subst. eauto.
Qed.

(** Every path that begins with a slash is matched by the entry ["/"]. *)
Lemma slash_prefix_public (path : string) :
  String.prefix "/" path = true -> _is_public_path path = true.
Proof.
  intros H. unfold _is_public_path, PUBLIC_PATHS. cbn [is_public_in].
  rewrite H. reflexivity.
Qed.

(** C10, as amended. For every request whose path begins with ["/"],
    [_is_public_path] is true, and [dispatch] takes the early return: it
    hands the request to the downstream application with the context
    variable and the request state as they were, so no tenant identifier
    is extracted, stored or cleared. *)
Theorem dispatch_public_for_slash_paths (request : Request) :
  String.prefix "/" (url_path request) = true ->
  _is_public_path (url_path request) = true
  /\ forall ctx call_next now_lib,
       dispatch ctx request call_next now_lib = (ctx, call_next ctx None).
Proof.
  intros H. split; [now apply slash_prefix_public|].
  intros ctx call_next now_lib. unfold dispatch.
  rewrite (slash_prefix_public _ H). reflexivity.
Qed.

(** On a path that is not public, the context variable is reset when the
    downstream application returns. *)
Lemma dispatch_clears_on_return
    (ctx : option string) (request : Request)
    (call_next : RequestResponseEndpoint) (now_lib : datetime)
    (ctx' : option string) (response : Response) :
  _is_public_path (url_path request) = false ->
  dispatch ctx request call_next now_lib = (ctx', Return response) ->
  ctx' = None.
Proof.
  intros Hpub. unfold dispatch. rewrite Hpub.
  destruct (_extract_tenant request now_lib) as [tenant|e]; [|discriminate].
  destruct (truthy_opt tenant); simpl.
  - destruct (call_next _ _); intros H; inversion H; reflexivity.
  - destruct (call_next _ _); intros H; inversion H; reflexivity.
Qed.

(** When the downstream application raises, the tenant the middleware
    stored stays in the context variable. *)
Lemma dispatch_keeps_tenant_on_error
    (ctx : option string) (request : Request)
    (call_next : RequestResponseEndpoint) (now_lib : datetime)
    (tenant : string) (e : exn) :
  _is_public_path (url_path request) = false ->
  _extract_tenant request now_lib = Return (Some tenant) ->
  truthy tenant = true ->
  call_next (Some tenant) (Some (Some tenant)) = Raise e ->
  dispatch ctx request call_next now_lib = (Some tenant, Raise e).
Proof.
  intros Hpub Hext Htruthy Hnext. unfold dispatch.
  rewrite Hpub, Hext. simpl. rewrite Htruthy, Hnext. reflexivity.
Qed.

End WithLibs.

End TenancyProps.

(** C7, counterexample. For a request whose only header is
    [Host: localhost], the resolution the claim describes yields the
    tenant ["localhost"], the leading label of the host; the code yields
    no tenant, because the host has no dot. *)
Lemma extract_tenant_dotless_host :
  Tenancy._extract_tenant (L := Toy.libs) TenancySpec.localhost_request 0
  = Return None
  /\ TenancySpec.claimed_resolution (H := Toy.libs) TenancySpec.localhost_request 0
     = Return (Some "localhost").
Proof. split; vm_compute; reflexivity. Qed.

(** C10, counterexample. The empty path, a string that does not begin
    with a slash, is not public. *)
Lemma empty_path_not_public : Tenancy._is_public_path "" = false.
Proof. reflexivity. Qed.

(** An instance of the theorem on public paths: the users listing. *)
Lemma dispatch_public_for_slash_paths_witness :
  Tenancy._is_public_path "/api/v1/users" = true
  /\ forall ctx call_next now_lib,
       Tenancy.dispatch (L := Toy.libs) ctx TenancySpec.localhost_request
                        call_next now_lib
       = (ctx, call_next ctx None).
Proof.
  apply (TenancyProps.dispatch_public_for_slash_paths (L := Toy.libs)
           TenancySpec.localhost_request).
  reflexivity.
Defined.

(** C6, at the failing input. A request on the non-public path [""] that
    names the tenant ["acme"] in [X-Tenant-ID], handed to a downstream
    application that raises: [dispatch] is left by the exception with
    ["acme"] still in the context variable. *)
Lemma dispatch_error_leaves_tenant :
  Tenancy.dispatch (L := Toy.libs) None TenancySpec.asterisk_request
                   TenancySpec.failing_handler 0
  = (Some "acme", Raise ValueError).
Proof. vm_compute. reflexivity. Qed.

(** ** The account guard *)

Module UserServiceProps.
Import Models Database UserService Guard.

Lemma bind_run {A B : Type} (m : M A) (k : A -> M B) (s s' : Session) (r : res A) :
  m s = (s', r) ->
  bind m k s = match r with
               | Return a => k a s'
               | Raise e => (s', Raise e)
               end.
Proof. intros H. unfold bind. rewrite H. reflexivity. Qed.

Lemma partition_resolved (s : Session) (n : string) (p : Partition) :
  current_schema s = Some n -> schemas (working s) !! n = Some p ->
  partition s = (s, Return (n, p)).
Proof.
  intros Hsch Hpart. unfold partition. rewrite Hsch, Hpart. reflexivity.
Qed.

Lemma get_by_username_resolved (s : Session) (n : string) (p : Partition)
    (login : string) :
  current_schema s = Some n -> schemas (working s) !! n = Some p ->
  get_by_username login s = (s, scalar_one_or_none (by_username p login)).
Proof.
  intros Hsch Hpart. unfold get_by_username, select_user, bind.
  rewrite (partition_resolved s n p Hsch Hpart). reflexivity.
Qed.

Lemma get_by_email_resolved (s : Session) (n : string) (p : Partition)
    (login : string) :
  current_schema s = Some n -> schemas (working s) !! n = Some p ->
  get_by_email login s = (s, scalar_one_or_none (by_email p login)).
Proof.
  intros Hsch Hpart. unfold get_by_email, select_user, bind.
  rewrite (partition_resolved s n p Hsch Hpart). reflexivity.
Qed.

Lemma sends_aware_same (stamp : option datetime) : sends_aware stamp stamp = false.
Proof. destruct stamp as [v|]; [|reflexivity]. cbn. now rewrite Z.eqb_refl. Qed.

Lemma sends_aware_new (loaded : option datetime) (v : datetime) :
  loaded <> Some v -> sends_aware loaded (Some v) = true.
Proof.
  intros H. destruct loaded as [w|]; [|reflexivity]. cbn.
  destruct (Z.eqb_spec w v) as [->|]; [now destruct H|reflexivity].
Qed.

(** A flush that sends no aware timestamp, followed by the commit. *)
Lemma flush_commit_resolved {A : Type} (s : Session) (n : string) (p : Partition)
    (loaded user' : User.t) (a : A) :
  current_schema s = Some n -> schemas (working s) !! n = Some p ->
  sends_aware (User.last_login loaded) (User.last_login user') = false ->
  sends_aware (User.locked_until loaded) (User.locked_until user') = false ->
  (run _ <- flush_user loaded user' in run _ <- commit in ret a) s
  = (saved s n p user', Return a).
Proof.
  intros Hsch Hpart Hlogin Hlock. unfold bind, flush_user.
  rewrite Hlogin, Hlock. cbn [orb]. unfold bind.
  rewrite (partition_resolved s n p Hsch Hpart). reflexivity.
Qed.

(** A flush that sends one is refused, and what follows it does not
    run. *)
Lemma flush_refused {A : Type} (s : Session) (loaded user' : User.t) (k : M A) :
  sends_aware (User.last_login loaded) (User.last_login user')
  || sends_aware (User.locked_until loaded) (User.locked_until user') = true ->
  (run _ <- flush_user loaded user' in k) s = (s, Raise DBAPIError).
Proof. intros H. unfold bind, flush_user. now rewrite H. Qed.

Lemma find_replaced (user user' : User.t) (rows : list User.t) :
  In user rows -> User.id user' = User.id user ->
  List.find (fun u => String.eqb (User.id u) (User.id user))
            (List.map (fun r => if String.eqb (User.id r) (User.id user')
                                then user' else r) rows)
  = Some user'.
Proof.
  intros Hin Hid. rewrite Hid. induction rows as [|r rows IH]; [destruct Hin|].
  simpl. destruct (String.eqb (User.id r) (User.id user)) eqn:Hr.
  - rewrite Hid, String.eqb_refl. reflexivity.
  - rewrite Hr. apply IH. destruct Hin as [->|Hin]; [|exact Hin].
    rewrite String.eqb_refl in Hr. discriminate.
Qed.


Section WithLibs.
Context {L : External}.


(** What [authenticate] does once the lookup has produced [user]. *)
Lemma authenticate_resolved (s : Session) (n : string) (p : Partition)
    (login password : string) (clock : AuthClock) (user : User.t) :
  current_schema s = Some n -> schemas (working s) !! n = Some p ->
  resolves_to p login user ->
  authenticate login password clock s
  = if negb (User.is_active user) then (s, Return None)
    else if match User.locked_until user with
            | Some until => now_lock_check clock <? until
            | None => false
            end
    then (s, Return None)
    else if negb (Security.verify_password password (User.password_hash user)) then
      if LOCKOUT_THRESHOLD <=? User.failed_login_attempts user + 1 then
        match Datetime.replace_minute (now_lock_base clock)
                (Datetime.minute (now_lock_minute clock) + LOCKOUT_MINUTES) with
        | Return until =>
            if sends_aware (User.locked_until user) (Some until)
            then (s, Raise DBAPIError)
            else (saved s n p (after_lockout until user), Return None)
        | Raise e => (s, Raise e)
        end
      else (saved s n p (after_failure user), Return None)
    else if sends_aware (User.last_login user) (Some (now_last_login clock))
         then (s, Raise DBAPIError)
         else (saved s n p (after_success (now_last_login clock) user),
               Return (Some (after_success (now_last_login clock) user))).
Proof.
  intros Hsch Hpart Hres. unfold authenticate.
  rewrite (bind_run _ _ _ _ _ (get_by_username_resolved s n p login Hsch Hpart)).
  assert (Hbody : forall body : option User.t -> M (option User.t),
    match scalar_one_or_none (by_username p login) with
    | Return a =>
        (run user0 <- match a with
                      | Some u => ret (Some u)
                      | None => get_by_email login
                      end in body user0) s
    | Raise e => (s, Raise e)
    end = body (Some user) s).
  { intros body. destruct Hres as [Hname|[Hname Hmail]]; rewrite Hname; simpl.
    - reflexivity.
    - rewrite (bind_run _ _ _ _ _ (get_by_email_resolved s n p login Hsch Hpart)).
      rewrite Hmail. reflexivity. }
  rewrite Hbody. clear Hbody.
  destruct (User.is_active user); cbn [negb]; [|reflexivity].
  destruct (match User.locked_until user with
            | Some until => now_lock_check clock <? until
            | None => false
            end); [reflexivity|].
  destruct (Security.verify_password password (User.password_hash user));
    cbn [negb].
  - destruct (sends_aware (User.last_login user) (Some (now_last_login clock)))
      eqn:Hsend.
    + apply flush_refused. cbn [User.last_login User.with_last_login].
      now rewrite Hsend.
    + apply (flush_commit_resolved s n p _ _ _ Hsch Hpart); [exact Hsend|].
      reflexivity.
  - cbn [User.failed_login_attempts User.with_failed_login_attempts].
    destruct (LOCKOUT_THRESHOLD <=? User.failed_login_attempts user + 1).
    + unfold bind at 1. unfold bind at 1. unfold lift.
      destruct (Datetime.replace_minute _ _) as [until|e]; [|reflexivity].
      unfold ret at 1.
      destruct (sends_aware (User.locked_until user) (Some until)) eqn:Hsend.
      * apply flush_refused.
        cbn [User.locked_until User.with_locked_until]. rewrite Hsend.
        apply orb_true_r.
      * apply (flush_commit_resolved s n p _ _ _ Hsch Hpart); [|exact Hsend].
        apply sends_aware_same.
    + unfold bind at 1. unfold ret at 1.
      apply (flush_commit_resolved s n p _ _ _ Hsch Hpart);
        apply sends_aware_same.
Qed.

Lemma minute_range (now : datetime) : 0 <= Datetime.minute now < 60.
Proof. unfold Datetime.minute. apply Z.mod_pos_bound. lia. Qed.

(** Before half past the hour, [replace] lands exactly thirty minutes
    later; from half past on, the minute is out of range. *)
Lemma replace_minute_half_hour (now : datetime) :
  Datetime.minute now < 30 ->
  Datetime.replace_minute now (Datetime.minute now + LOCKOUT_MINUTES)
  = Return (now + Datetime.timedelta_minutes 30).
Proof.
  intros H. pose proof (minute_range now) as Hr.
  unfold Datetime.replace_minute, LOCKOUT_MINUTES, Datetime.timedelta_minutes.
  replace ((0 <=? Datetime.minute now + 30) && (Datetime.minute now + 30 <=? 59))
    with true by (symmetry; apply andb_true_intro; split; apply Z.leb_le; lia).
  f_equal. lia.
Qed.

Lemma replace_minute_overflow (now : datetime) :
  30 <= Datetime.minute now ->
  Datetime.replace_minute now (Datetime.minute now + LOCKOUT_MINUTES)
  = Raise ValueError.
Proof.
  intros H. unfold Datetime.replace_minute, LOCKOUT_MINUTES.
  replace (Datetime.minute now + 30 <=? 59) with false
    by (symmetry; apply Z.leb_gt; lia).
  rewrite andb_false_r. reflexivity.
Qed.

Lemma unlocked_test (now : datetime) (user : User.t) :
  unlocked_at now user ->
  match User.locked_until user with
  | Some until => now <? until
  | None => false
  end = false.
Proof.
  unfold unlocked_at. destruct (User.locked_until user) as [until|]; [|reflexivity].
  intros H. apply Z.ltb_ge. now apply H.
Qed.


(** The failed check that reaches the threshold, before half past the
    hour: the lockout expiry is an aware timestamp, the flush that
    carries it is refused, and [authenticate] is left by the
    [DBAPIError] with nothing written: neither the counter nor the
    lockout is stored. *)
Lemma authenticate_lockout_refused (s : Session) (n : string) (p : Partition)
    (login password : string) (now : datetime) (user : User.t) :
  current_schema s = Some n -> schemas (working s) !! n = Some p ->
  resolves_to p login user ->
  User.is_active user = true ->
  unlocked_at now user ->
  Security.verify_password password (User.password_hash user) = false ->
  LOCKOUT_THRESHOLD <= User.failed_login_attempts user + 1 ->
  Datetime.minute now < 30 ->
  authenticate login password (at_instant now) s = (s, Raise DBAPIError).
Proof.
  intros Hsch Hpart Hres Hact Hunl Hpw Hhigh Hmin.
  rewrite (authenticate_resolved s n p login password _ user Hsch Hpart Hres).
  cbn [at_instant now_lock_check now_lock_base now_lock_minute].
  rewrite Hact, (unlocked_test _ _ Hunl), Hpw. cbn [negb].
  replace (LOCKOUT_THRESHOLD <=? User.failed_login_attempts user + 1) with true
    by (symmetry; apply Z.leb_le; lia).
  rewrite (replace_minute_half_hour now Hmin).
  rewrite sends_aware_new; [reflexivity|].
  intros Hlock. specialize (Hunl _ Hlock).
  unfold Datetime.timedelta_minutes, Datetime.MINUTE, Datetime.SECOND in Hunl.
  lia.
Qed.

(** The same failed check from half past the hour on: [replace] raises,
    [authenticate] is left by the [ValueError] before its commit, and the
    session is as it was. *)
Lemma authenticate_failure_raises (s : Session) (n : string) (p : Partition)
    (login password : string) (now : datetime) (user : User.t) :
  current_schema s = Some n -> schemas (working s) !! n = Some p ->
  resolves_to p login user ->
  User.is_active user = true ->
  unlocked_at now user ->
  Security.verify_password password (User.password_hash user) = false ->
  LOCKOUT_THRESHOLD <= User.failed_login_attempts user + 1 ->
  30 <= Datetime.minute now ->
  authenticate login password (at_instant now) s = (s, Raise ValueError).
Proof.
  intros Hsch Hpart Hres Hact Hunl Hpw Hhigh Hmin.
  rewrite (authenticate_resolved s n p login password _ user Hsch Hpart Hres).
  simpl. rewrite Hact, (unlocked_test _ _ Hunl), Hpw. simpl.
  replace (LOCKOUT_THRESHOLD <=? User.failed_login_attempts user + 1) with true
    by (symmetry; apply Z.leb_le; lia).
  rewrite (replace_minute_overflow now Hmin). reflexivity.
Qed.

(** An identity whose lockout has not expired is turned away whatever
    the password and whatever the password check would say, and the
    session is left as it was: nothing is counted, nothing is written. *)
Lemma authenticate_locked_out (s : Session) (n : string) (p : Partition)
    (login password : string) (clock : AuthClock) (user : User.t)
    (until : datetime) :
  current_schema s = Some n -> schemas (working s) !! n = Some p ->
  resolves_to p login user ->
  User.locked_until user = Some until ->
  now_lock_check clock < until ->
  authenticate login password clock s = (s, Return None).
Proof.
  intros Hsch Hpart Hres Hlock Hnow.
  rewrite (authenticate_resolved s n p login password clock user Hsch Hpart Hres).
  rewrite Hlock.
  replace (now_lock_check clock <? until) with true
    by (symmetry; apply Z.ltb_lt; lia).
  destruct (User.is_active user); reflexivity.
Qed.


(** C3. An identity [user] locked until [until], seen by two attempts:
    one at [during], before the expiry, and one at [after], once it has
    passed. The attempt before the expiry is turned away whatever the
    password, with the session as it was: nothing is counted, nothing
    is written. The attempt after the expiry, with the correct password
    of the active identity, does not succeed: the commit that would
    reset the counter and clear the expiry also carries the
    [last_login] stamp and is refused, [authenticate] raises, and the
    session is as it was, counter and expiry included. *)
Theorem lockout_window (s : Session) (n : string) (p : Partition)
    (login password : string) (during after : AuthClock) (user : User.t)
    (until : datetime) :
  current_schema s = Some n -> schemas (working s) !! n = Some p ->
  resolves_to p login user ->
  User.locked_until user = Some until ->
  now_lock_check during < until ->
  until <= now_lock_check after ->
  User.is_active user = true ->
  Security.verify_password password (User.password_hash user) = true ->
  User.last_login user <> Some (now_last_login after) ->
  (forall attempt, authenticate login attempt during s = (s, Return None))
  /\ authenticate login password after s = (s, Raise DBAPIError).
Proof.
  intros Hsch Hpart Hres Hlock Hduring Hafter Hact Hpw Hstamp. split.
  - intros attempt.
    rewrite (authenticate_resolved s n p login attempt during user
               Hsch Hpart Hres).
    rewrite Hlock, Hact. cbn [negb].
    replace (now_lock_check during <? until) with true
      by (symmetry; apply Z.ltb_lt; lia).
    reflexivity.
  - rewrite (authenticate_resolved s n p login password after user
               Hsch Hpart Hres).
    rewrite Hlock, Hact, Hpw. cbn [negb].
    replace (now_lock_check after <? until) with false
      by (symmetry; apply Z.ltb_ge; lia).
    now rewrite (sends_aware_new _ _ Hstamp).
Qed.

End WithLibs.

End UserServiceProps.

(** C2, at the failing input. Alice has four failed attempts on record
    and is not locked. A wrong password at 12:45 is the fifth failure:
    [replace(minute=75)] raises, so [authenticate] neither returns nor
    commits, and the stored counter is still four with no lockout. *)
Lemma authenticate_fifth_failure_raises :
  Datetime.minute Fixtures.quarter_to_one = 45
  /\ UserService.authenticate (L := Toy.libs) "alice" "wrong"
       (UserService.at_instant Fixtures.quarter_to_one) Fixtures.acme_session
     = (Fixtures.acme_session, Raise ValueError)
  /\ Guard.stored_user (Database.committed Fixtures.acme_session)
       "tenant_acme" "u-alice" = Some Fixtures.alice.
Proof. repeat split; vm_compute; reflexivity. Qed.

(** A deactivated identity is turned away before the lockout or the
    password is looked at: Bob's lockout expired long ago and the
    password is his, but his account is deactivated, and [authenticate]
    returns [None] and leaves the session, counter included, as it
    was. *)
Lemma inactive_identity_stays_out :
  Models.User.locked_until Fixtures.bob = Some (1700000000 * Datetime.SECOND)
  /\ 1700000000 * Datetime.SECOND < Fixtures.ten_past_twelve
  /\ Security.verify_password (L := Toy.libs) "battery staple"
       (Models.User.password_hash Fixtures.bob) = true
  /\ UserService.authenticate (L := Toy.libs) "bob" "battery staple"
       (UserService.at_instant Fixtures.ten_past_twelve) Fixtures.acme_session
     = (Fixtures.acme_session, Return None).
Proof. repeat split; vm_compute; reflexivity. Qed.

(** C3, at the failing input. Carol is locked until 13:00. At 12:10 she
    is turned away whatever the password; at 13:30, with her own
    password, [authenticate] raises [DBAPIError] instead of returning
    her, and her row still carries five failed attempts and the expired
    lockout. *)
Lemma lockout_window_witness :
  (forall attempt,
      UserService.authenticate (L := Toy.libs) "carol" attempt
        (UserService.at_instant Fixtures.ten_past_twelve) Fixtures.acme_session
      = (Fixtures.acme_session, Return None))
  /\ UserService.authenticate (L := Toy.libs) "carol" "tr0ub4dor"
       (UserService.at_instant Fixtures.half_past_one) Fixtures.acme_session
     = (Fixtures.acme_session, Raise DBAPIError).
Proof.
  apply (UserServiceProps.lockout_window (L := Toy.libs)
           Fixtures.acme_session "tenant_acme" Fixtures.acme_users
           "carol" "tr0ub4dor"
           (UserService.at_instant Fixtures.ten_past_twelve)
           (UserService.at_instant Fixtures.half_past_one)
           Fixtures.carol (1704114000 * Datetime.SECOND)).
  - reflexivity.
  - reflexivity.
  - left. reflexivity.
  - reflexivity.
  - reflexivity.
  - vm_compute. discriminate.
  - reflexivity.
  - reflexivity.
  - discriminate.
Defined.

(** ** Tenant provisioning *)

Module ProvisioningProps.
Import Models Database Directory.

Create HintDb durable discriminated.

Lemma preserves_ret {A : Type} (I : Session -> Prop) (a : A) : preserves I (ret a).
Proof. intros s H. exact H. Qed.

Lemma preserves_raise {A : Type} (I : Session -> Prop) (e : exn) :
  preserves I (@raise A e).
Proof. intros s H. exact H. Qed.

Lemma preserves_lift {A : Type} (I : Session -> Prop) (r : res A) :
  preserves I (lift r).
Proof. intros s H. exact H. Qed.

Lemma preserves_bind {A B : Type} (I : Session -> Prop) (m : M A) (k : A -> M B) :
  preserves I m -> (forall a, preserves I (k a)) -> preserves I (bind m k).
Proof.
  intros Hm Hk s H. unfold bind. specialize (Hm s H).
  destruct (m s) as [s1 [a|e]]; simpl in *; [apply Hk|]; assumption.
Qed.

Lemma preserves_try_except {A : Type} (I : Session -> Prop) (m : M A)
    (handler : exn -> M A) :
  preserves I m -> (forall e, preserves I (handler e)) ->
  preserves I (try_except m handler).
Proof.
  intros Hm Hh s H. unfold try_except. specialize (Hm s H).
  destruct (m s) as [s1 [a|e]]; simpl in *; [|apply Hh]; assumption.
Qed.

Lemma preserves_statement {A : Type} (I : Session -> Prop) (faults : FaultPlan)
    (st : Statement) (m : M A) :
  preserves I m -> preserves I (statement faults st m).
Proof.
  intros Hm s H. unfold statement. destruct (faults st); [exact H|now apply Hm].
Qed.

Lemma preserves_if {A : Type} (I : Session -> Prop) (b : bool) (m1 m2 : M A) :
  preserves I m1 -> preserves I m2 -> preserves I (if b then m1 else m2).
Proof. destruct b; auto. Qed.

#[local] Hint Resolve preserves_ret preserves_raise preserves_lift
  preserves_bind preserves_try_except preserves_statement preserves_if : durable.

Section Slug.
Variable slug : string.

Lemma durable_get_working : preserves (slug_durable slug) get_working.
Proof. intros s H. exact H. Qed.

Lemma durable_partition : preserves (slug_durable slug) partition.
Proof.
  intros s H. unfold partition.
  destruct (current_schema s); [destruct (_ !! _)|]; exact H.
Qed.

Lemma durable_put_partition (n : string) (p : Partition) :
  preserves (slug_durable slug) (put_partition n p).
Proof. intros s H. exact H. Qed.

Lemma durable_commit : preserves (slug_durable slug) commit.
Proof. intros s [_ H]. split; exact H. Qed.

Lemma durable_rollback : preserves (slug_durable slug) rollback.
Proof. intros s [H _]. split; exact H. Qed.

Lemma durable_set_search_path (text : string) :
  preserves (slug_durable slug) (set_search_path text).
Proof.
  intros s H. unfold set_search_path. destruct (names_of _); exact H.
Qed.

Lemma has_slug_replace (tenant : Tenant.t) (rows : list Tenant.t) :
  Tenant.slug tenant = slug ->
  (exists t, In t rows /\ Tenant.slug t = slug) ->
  exists t, In t (List.map (fun r => if String.eqb (Tenant.id r) (Tenant.id tenant)
                                     then tenant else r) rows)
            /\ Tenant.slug t = slug.
Proof.
  intros Hslug (t & Hin & Ht).
  exists (if String.eqb (Tenant.id t) (Tenant.id tenant) then tenant else t).
  split.
  - apply in_map_iff. exists t. auto.
  - destruct (String.eqb _ _); assumption.
Qed.

Lemma durable_flush_tenant (tenant : Tenant.t) :
  Tenant.slug tenant = slug ->
  preserves (slug_durable slug) (TenantService.flush_tenant tenant).
Proof.
  intros Hslug s [Hc Hw]. split; [exact Hc|].
  unfold has_slug in *. simpl. now apply has_slug_replace.
Qed.

#[local] Hint Resolve durable_get_working durable_partition
  durable_put_partition durable_commit durable_rollback
  durable_set_search_path durable_flush_tenant : durable.

Lemma durable_create_schema_if_not_exists (text : string) :
  preserves (slug_durable slug) (TenantService.create_schema_if_not_exists text).
Proof.
  intros s [Hc Hw]. unfold TenantService.create_schema_if_not_exists.
  destruct (sql_tokens text) as [|[name| |] [|? ?]]; try (split; assumption).
  unfold bind, get_working.
  destruct (schemas (working s) !! name); split; assumption.
Qed.

Lemma durable_seed_role (code name description : string) (new_id : UUID_t) :
  preserves (slug_durable slug)
            (TenantService.seed_role code name description new_id).
Proof.
  unfold TenantService.seed_role.
  apply preserves_bind; [auto with durable|]. intros sp.
  apply preserves_if; auto with durable.
Qed.

#[local] Hint Resolve durable_create_schema_if_not_exists durable_seed_role
  : durable.

Lemma durable_create_schema (faults : FaultPlan) (tenant : Tenant.t)
    (admin_role_id user_role_id : UUID_t) :
  Tenant.slug tenant = slug ->
  preserves (slug_durable slug)
            (TenantService.create_schema faults tenant admin_role_id user_role_id).
Proof.
  intros Hslug. unfold TenantService.create_schema.
  apply preserves_try_except; [|intros e; auto with durable].
  repeat (apply preserves_bind; [auto 6 with durable|intros ?]).
  auto with durable.
Qed.

End Slug.

#[local] Hint Resolve durable_get_working durable_partition
  durable_put_partition durable_commit durable_rollback
  durable_set_search_path durable_flush_tenant
  durable_create_schema_if_not_exists durable_seed_role : durable.

Section Registration.
Context {L : External}.

Ltac durable_steps :=
  repeat first
    [ apply preserves_bind; [auto 6 with durable|intros ?]
    | apply preserves_if
    | apply preserves_statement
    | match goal with
      | |- preserves _ (match ?x with _ => _ end) => destruct x
      end
    | progress auto 6 with durable ].

Lemma durable_create_admin_user (slug : string) (faults : FaultPlan)
    (email username password first_name last_name : string) (new_id : UUID_t) :
  preserves (slug_durable slug)
    (UserService.create_admin_user faults email username password
                                   first_name last_name new_id).
Proof.
  unfold UserService.create_admin_user. durable_steps.
Qed.

Lemma durable_role_codes (slug : string) (user : User.t) :
  preserves (slug_durable slug) (UserService.role_codes_unloaded user).
Proof. unfold UserService.role_codes_unloaded. durable_steps. Qed.

(** When [create] returns, the new row is committed. *)
Lemma create_commits_row (faults : FaultPlan) (data : Schemas.TenantCreate)
    (new_id settings_id : UUID_t) (s s1 : Session) (tenant : Tenant.t) :
  TenantService.create faults data new_id settings_id s = (s1, Return tenant) ->
  Tenant.slug tenant = Schemas.slug data
  /\ Tenant.schema_created tenant = false
  /\ slug_durable (Schemas.slug data) s1.
Proof.
  unfold TenantService.create, statement, bind, get_working, put_working,
    commit, raise, ret.
  destruct (faults InsertTenant); [discriminate|].
  destruct (_ <? _)%nat; [discriminate|].
  destruct (existsb _ (tenants (working s))); [discriminate|].
  destruct (faults InsertTenantSettings); [discriminate|]. cbn [working].
  destruct (existsb _ (tenant_settings _)); [discriminate|].
  intros H; inversion H; subst; clear H. simpl.
  repeat split; eexists; (split; [apply in_or_app; right; left; reflexivity|]);
    reflexivity.
Qed.

(** Whatever happens after [create] has returned -- the remaining steps
    succeed, raise on their own, or fail by an injected storage fault --
    the [Tenant] row for the requested slug is in the directory when the
    registration endpoint is left. *)
Lemma register_tenant_keeps_row (faults : FaultPlan)
    (request : Schemas.TenantRegistration) (ids : AuthService.FreshIds)
    (now_access now_refresh : datetime) (inherited : list string) (db : Db)
    (s1 : Session) (tenant : Tenant.t) :
  TenantService.create faults
    {| Schemas.name := Schemas.tenant_name request;
       Schemas.slug := Schemas.reg_tenant_slug request;
       Schemas.contact_email := Schemas.reg_contact_email request |}
    (AuthService.tenant_uuid ids) (AuthService.settings_uuid ids)
    (open_session inherited db) = (s1, Return tenant) ->
  has_slug (Schemas.reg_tenant_slug request)
    (fst (AuthApi.register_tenant faults request ids now_access now_refresh
            inherited db)).
Proof.
  intros Hcreate.
  destruct (create_commits_row _ _ _ _ _ _ _ Hcreate) as (Hslug & _ & Hdur).
  simpl in Hslug, Hdur.
  unfold AuthApi.register_tenant, get_db, try_except, AuthService.register_tenant.
  rewrite (UserServiceProps.bind_run _ _ _ _ _ Hcreate).
  match goal with
  | |- context [ (run created <- ?m in @?k created) s1 ] =>
      assert (Hrest : preserves (slug_durable (Schemas.reg_tenant_slug request))
                                (run created <- m in k created))
  end.
  { apply preserves_bind; [now apply durable_create_schema|]. intros created.
    pose proof (durable_create_admin_user (Schemas.reg_tenant_slug request)).
    pose proof (durable_role_codes (Schemas.reg_tenant_slug request)).
    durable_steps. }
  specialize (Hrest s1 Hdur).
  destruct ((run created <- _ in _) s1) as [s2 [r|e]]; simpl in *;
    apply Hrest.
Qed.

End Registration.

End ProvisioningProps.

(** C1, at the failing inputs. On a fresh installation:
    - registering the slug ["acme-corp"], which [validate_slug] accepts,
      with no storage fault at all: [CREATE SCHEMA tenant_acme-corp] is
      a syntax error, the endpoint answers 400, and the directory holds
      one [Tenant] row for ["acme-corp"], flagged not provisioned;
    - registering ["globex"] with a storage fault injected when the
      administrator is inserted, after the partition was created: the
      endpoint answers 400, and the directory holds one [Tenant] row for
      ["globex"] and the partition [tenant_globex]. *)
Lemma register_tenant_failure_leaves_row :
  Schemas.validate_slug "acme-corp" = true
  /\ (let r := AuthApi.register_tenant (L := Toy.libs) Database.no_faults
                 (Fixtures.registration "acme-corp") Fixtures.fresh_ids 0 0
                 Fixtures.new_connection Fixtures.fresh_db in
      snd r = Raise (HTTPException 400 "Failed to create tenant: ProgrammingError")
      /\ Database.tenants (fst r) = [Fixtures.new_tenant "acme-corp"]
      /\ Directory.count_slug "acme-corp" (fst r) = 1%nat)
  /\ (let r := AuthApi.register_tenant (L := Toy.libs) Fixtures.fail_admin_insert
                 (Fixtures.registration "globex") Fixtures.fresh_ids 0 0
                 Fixtures.new_connection Fixtures.fresh_db in
      snd r = Raise (HTTPException 400 "Failed to create tenant: OperationalError")
      /\ Directory.count_slug "globex" (fst r) = 1%nat
      /\ is_Some (Database.schemas (fst r) !! "tenant_globex")).
Proof.
  split; [reflexivity|]. split.
  - vm_compute. repeat split; reflexivity.
  - vm_compute. repeat split; try reflexivity. eexists. reflexivity.
Qed.

(** ** Login, token refresh and the [schema_created] flag *)

Module AuthServiceProps.
Import Models Database Directory.

Lemma bind_return_inv {A B : Type} (m : M A) (k : A -> M B)
    (s s' : Session) (b : B) :
  bind m k s = (s', Return b) ->
  exists a s1, m s = (s1, Return a) /\ k a s1 = (s', Return b).
Proof.
  unfold bind. destruct (m s) as [s1 [a|e]]; [eauto|discriminate].
Qed.

Lemma get_by_slug_run (slug : string) (s : Session) :
  TenantService.get_by_slug slug s
  = (s, scalar_one_or_none
          (List.filter (fun t => String.eqb (Tenant.slug t) slug)
                       (tenants (working s)))).
Proof. reflexivity. Qed.

Lemma get_by_slug_found (slug : string) (s s' : Session) (tenant : Tenant.t) :
  TenantService.get_by_slug slug s = (s', Return (Some tenant)) ->
  s' = s /\ In tenant (tenants (working s)) /\ Tenant.slug tenant = slug.
Proof.
  rewrite get_by_slug_run. intros H. injection H as Hs Hrows. subst s'.
  split; [reflexivity|].
  destruct (List.filter _ _) as [|t [|t' rows]] eqn:Hf; try discriminate.
  injection Hrows as ->.
  assert (Hin : In tenant (List.filter
                (fun t => String.eqb (Tenant.slug t) slug) (tenants (working s)))).
  { rewrite Hf. left. reflexivity. }
  apply filter_In in Hin as [Hin Heq]. apply String.eqb_eq in Heq. auto.
Qed.

Section FlagBlind.
Variable f : Tenant.t -> bool.

Lemma res_map_id {A : Type} (r : res A) : res_map (fun a => a) r = r.
Proof. destruct r; reflexivity. Qed.

(** A computation that is blind to the flag, with the same result. *)
Abbreviation blind m := (flag_blind f (fun a => a) m m).

Lemma fb_ret {A : Type} (g : A -> A) (a : A) : flag_blind f g (ret (g a)) (ret a).
Proof. intros s. reflexivity. Qed.

Lemma blind_ret {A : Type} (a : A) : blind (ret a).
Proof. intros s. reflexivity. Qed.

Lemma fb_raise {A : Type} (g : A -> A) (e : exn) :
  flag_blind f g (raise e) (raise e).
Proof. intros s. reflexivity. Qed.

Lemma blind_lift {A : Type} (r : res A) : blind (lift r).
Proof. intros s. simpl. now rewrite res_map_id. Qed.

Lemma fb_bind {A B : Type} (gA : A -> A) (gB : B -> B)
    (m1 m2 : M A) (k1 k2 : A -> M B) :
  flag_blind f gA m1 m2 ->
  (forall a, flag_blind f gB (k1 (gA a)) (k2 a)) ->
  flag_blind f gB (bind m1 k1) (bind m2 k2).
Proof.
  intros Hm Hk s. unfold bind. rewrite (Hm s).
  destruct (m2 s) as [s1 [a|e]]; simpl; [apply Hk|reflexivity].
Qed.

Lemma blind_bind {A B : Type} (gB : B -> B) (m : M A) (k1 k2 : A -> M B) :
  blind m -> (forall a, flag_blind f gB (k1 a) (k2 a)) ->
  flag_blind f gB (bind m k1) (bind m k2).
Proof. intros Hm Hk. now apply (fb_bind (fun a => a)). Qed.

Lemma fb_if {A : Type} (g : A -> A) (b : bool) (m1 m1' m2 m2' : M A) :
  flag_blind f g m1 m1' -> flag_blind f g m2 m2' ->
  flag_blind f g (if b then m1 else m2) (if b then m1' else m2').
Proof. destruct b; auto. Qed.

Lemma current_schema_reflag (s : Session) :
  current_schema (reflag_session f s) = current_schema s.
Proof. reflexivity. Qed.

Lemma blind_partition : blind partition.
Proof.
  intros s. unfold partition. rewrite current_schema_reflag. simpl.
  destruct (current_schema s) as [n|]; [|reflexivity].
  destruct (schemas (working s) !! n); reflexivity.
Qed.

Lemma blind_put_partition (n : string) (p : Partition) : blind (put_partition n p).
Proof. intros s. reflexivity. Qed.

Lemma blind_commit : blind commit.
Proof. intros s. reflexivity. Qed.

Lemma blind_set_search_path (text : string) : blind (set_search_path text).
Proof.
  intros s. unfold set_search_path. destruct (names_of _); reflexivity.
Qed.

Create HintDb blind discriminated.

#[local] Hint Resolve blind_ret fb_raise blind_lift blind_partition
  blind_put_partition blind_commit blind_set_search_path : blind.

Ltac blind_steps :=
  repeat first
    [ apply blind_bind; [auto 6 with blind|intros ?]
    | apply fb_if
    | match goal with
      | |- flag_blind _ _ (match ?x with _ => _ end) _ => destruct x
      end
    | progress auto 6 with blind ].

Lemma blind_select_user (cond : User.t -> bool) :
  blind (UserService.select_user cond).
Proof. unfold UserService.select_user. blind_steps. Qed.

Lemma blind_flush_user (loaded user : User.t) :
  blind (UserService.flush_user loaded user).
Proof. unfold UserService.flush_user. blind_steps. Qed.

Lemma blind_role_codes (user : User.t) : blind (UserService.role_codes user).
Proof. unfold UserService.role_codes. blind_steps. Qed.

#[local] Hint Resolve blind_select_user blind_flush_user blind_role_codes : blind.

Lemma reflag_tenant_fields (t : Tenant.t) :
  Tenant.slug (reflag_tenant f t) = Tenant.slug t
  /\ Tenant.is_active (reflag_tenant f t) = Tenant.is_active t
  /\ Tenant.schema_name (reflag_tenant f t) = Tenant.schema_name t.
Proof. repeat split. Qed.

Lemma filter_slug_reflag (slug : string) (rows : list Tenant.t) :
  List.filter (fun t => String.eqb (Tenant.slug t) slug)
              (List.map (reflag_tenant f) rows)
  = List.map (reflag_tenant f)
             (List.filter (fun t => String.eqb (Tenant.slug t) slug) rows).
Proof.
  induction rows as [|t rows IH]; [reflexivity|]. simpl.
  destruct (String.eqb (Tenant.slug t) slug); simpl; now rewrite IH.
Qed.

Lemma fb_get_by_slug (slug : string) :
  flag_blind f (fmap (reflag_tenant f))
             (TenantService.get_by_slug slug) (TenantService.get_by_slug slug).
Proof.
  intros s. rewrite !get_by_slug_run. simpl. rewrite filter_slug_reflag.
  destruct (List.filter _ _) as [|t [|t' rows]]; reflexivity.
Qed.

Section WithLibs.
Context {L : External}.

Lemma blind_authenticate (login password : string) (clock : UserService.AuthClock) :
  blind (UserService.authenticate login password clock).
Proof.
  unfold UserService.authenticate, UserService.get_by_username,
    UserService.get_by_email.
  blind_steps.
Qed.

#[local] Hint Resolve blind_authenticate : blind.

Lemma fb_login (username password : string) (tenant_slug : option string)
    (clock : UserService.AuthClock) (now_access now_refresh : datetime) :
  flag_blind f (login_result_reflag f)
    (AuthService.login username password tenant_slug clock now_access now_refresh)
    (AuthService.login username password tenant_slug clock now_access now_refresh).
Proof.
  unfold AuthService.login.
  apply fb_if; [apply (fb_ret (login_result_reflag f) None)|].
  apply (fb_bind (fmap (reflag_tenant f))); [apply fb_get_by_slug|].
  intros [tenant|]; simpl; [|apply (fb_ret (login_result_reflag f) None)].
  apply fb_if; [apply (fb_ret (login_result_reflag f) None)|].
  apply blind_bind; [auto with blind|intros _].
  apply blind_bind; [auto with blind|intros [user|]];
    [|apply (fb_ret (login_result_reflag f) None)].
  apply blind_bind; [auto with blind|intros codes].
  apply (fb_ret (login_result_reflag f) (Some (_, _, _))).
Qed.

Lemma blind_login_body (request : Schemas.LoginRequest)
    (clock : UserService.AuthClock) (now_access now_refresh : datetime) :
  blind (AuthApi.login_body request clock now_access now_refresh).
Proof.
  unfold AuthApi.login_body.
  apply (fb_bind (login_result_reflag f)); [apply fb_login|].
  intros [[[resp user] tenant]|]; simpl; auto with blind.
Qed.

Lemma blind_refresh_token (refresh_token : string)
    (now_lib now now_access now_refresh : datetime) :
  blind (AuthService.refresh_token refresh_token now_lib now
                                   now_access now_refresh).
Proof.
  unfold AuthService.refresh_token.
  apply blind_bind; [auto with blind|intros [payload|]]; [|auto with blind].
  apply (fb_bind (fmap (reflag_tenant f))); [apply fb_get_by_slug|].
  intros [tenant|]; simpl; [|auto with blind].
  unfold UserService.get_by_id. blind_steps.
Qed.

Lemma get_db_blind {A : Type} (m : M A) (inherited : list string) (db : Db) :
  blind m ->
  get_db m inherited (reflag f db)
  = (reflag f (fst (get_db m inherited db)), snd (get_db m inherited db)).
Proof.
  intros Hm. unfold get_db.
  change (open_session inherited (reflag f db))
    with (reflag_session f (open_session inherited db)).
  rewrite (Hm (open_session inherited db)), res_map_id.
  destruct (m (open_session inherited db)) as [s r]. reflexivity.
Qed.

End WithLibs.

End FlagBlind.

Section WithLibs.
Context {L : External}.

Lemma login_success_tenant (username password : string)
    (tenant_slug : option string) (clock : UserService.AuthClock)
    (now_access now_refresh : datetime) (s s' : Session)
    (resp : Schemas.TokenResponse) (user : User.t) (tenant : Tenant.t) :
  AuthService.login username password tenant_slug clock now_access now_refresh s
  = (s', Return (Some (resp, user, tenant))) ->
  tenant_slug = Some (Tenant.slug tenant)
  /\ In tenant (tenants (working s))
  /\ Tenant.is_active tenant = true.
Proof.
  unfold AuthService.login.
  destruct tenant_slug as [slug|]; simpl; [|discriminate].
  destruct (truthy slug); simpl; [|discriminate].
  intros H. apply bind_return_inv in H as (found & s1 & Hget & H).
  destruct found as [t|]; [|discriminate].
  apply get_by_slug_found in Hget as (-> & Hin & Hslug).
  destruct (Tenant.is_active t) eqn:Hact; simpl in H; [|discriminate].
  apply bind_return_inv in H as (? & s2 & _ & H).
  apply bind_return_inv in H as (authenticated & s3 & _ & H).
  destruct authenticated as [u|]; [|discriminate].
  apply bind_return_inv in H as (codes & s4 & _ & H).
  injection H as _ _ _ <-. subst slug. auto.
Qed.

Lemma refresh_success_tenant (refresh_token : string)
    (now_lib now now_access now_refresh : datetime) (s s' : Session)
    (resp : Schemas.TokenResponse) :
  AuthService.refresh_token refresh_token now_lib now now_access now_refresh s
  = (s', Return (Some resp)) ->
  exists payload tenant,
    Security.verify_token refresh_token "refresh" now_lib now
    = Return (Some payload)
    /\ In tenant (tenants (working s))
    /\ Tenant.slug tenant = Security.tenant_id payload
    /\ Tenant.is_active tenant = true.
Proof.
  unfold AuthService.refresh_token. intros H.
  apply bind_return_inv in H as (verified & s1 & Hverify & H).
  unfold lift in Hverify. injection Hverify as <- Hverify.
  destruct verified as [payload|]; [|discriminate].
  apply bind_return_inv in H as (found & s2 & Hget & H).
  destruct found as [t|]; [|discriminate].
  apply get_by_slug_found in Hget as (-> & Hin & Hslug).
  destruct (Tenant.is_active t) eqn:Hact; simpl in H; [|discriminate].
  exists payload, t. auto.
Qed.

(** C8, as amended. [login] and [refresh_token] succeed only for a
    tenant that has a row in the directory with [is_active] set; and
    neither consults [schema_created]: whatever the flags of the tenants
    are changed to, both endpoints give the same answer and leave the
    same database, up to those flags. This holds on every connection,
    whatever search path it was left with. *)
Theorem login_and_refresh_gate (f : Tenant.t -> bool) :
  (forall request clock now_access now_refresh inherited db db' resp,
      AuthApi.login request clock now_access now_refresh inherited db
      = (db', Return resp) ->
      exists tenant,
        In tenant (tenants db)
        /\ Schemas.tenant_slug request = Some (Tenant.slug tenant)
        /\ Tenant.is_active tenant = true)
  /\ (forall token now_lib now now_access now_refresh inherited db db' resp,
         AuthApi.refresh_token token now_lib now now_access now_refresh
                               inherited db
         = (db', Return resp) ->
         exists payload tenant,
           Security.verify_token token "refresh" now_lib now
           = Return (Some payload)
           /\ In tenant (tenants db)
           /\ Tenant.slug tenant = Security.tenant_id payload
           /\ Tenant.is_active tenant = true)
  /\ (forall request clock now_access now_refresh inherited db,
         AuthApi.login request clock now_access now_refresh inherited
                       (reflag f db)
         = (reflag f (fst (AuthApi.login request clock now_access now_refresh
                                         inherited db)),
            snd (AuthApi.login request clock now_access now_refresh
                               inherited db)))
  /\ (forall token now_lib now now_access now_refresh inherited db,
         AuthApi.refresh_token token now_lib now now_access now_refresh
                               inherited (reflag f db)
         = (reflag f (fst (AuthApi.refresh_token token now_lib now
                                                 now_access now_refresh
                                                 inherited db)),
            snd (AuthApi.refresh_token token now_lib now
                                       now_access now_refresh inherited db))).
Proof.
  split; [|split; [|split]].
  - intros request clock now_access now_refresh inherited db db' resp.
    unfold AuthApi.login, get_db, AuthApi.login_body.
    destruct (bind _ _ (open_session inherited db)) as [s r] eqn:Hrun.
    intros H. injection H as _ ->.
    apply bind_return_inv in Hrun as (result & s1 & Hlogin & Hk).
    destruct result as [[[resp' user] tenant]|]; [|discriminate].
    apply login_success_tenant in Hlogin as (Hslug & Hin & Hact).
    exists tenant. auto.
  - intros token now_lib now now_access now_refresh inherited db db' resp.
    unfold AuthApi.refresh_token, get_db.
    destruct (bind _ _ (open_session inherited db)) as [s r] eqn:Hrun.
    intros H. injection H as _ ->.
    apply bind_return_inv in Hrun as (result & s1 & Hrefresh & Hk).
    destruct result as [resp'|]; [|discriminate].
    now apply refresh_success_tenant in Hrefresh.
  - intros request clock now_access now_refresh inherited db.
    apply get_db_blind, blind_login_body.
  - intros token now_lib now now_access now_refresh inherited db.
    unfold AuthApi.refresh_token. apply get_db_blind.
    apply blind_bind; [apply blind_refresh_token|].
    intros [resp|]; [apply blind_ret|apply fb_raise].
Qed.

End WithLibs.

End AuthServiceProps.

(** C8, counterexample. On a fresh installation ["acme"] is registered
    with no storage fault: its schema, its roles and its administrator
    are committed. Then a second slug, ["acme"] with a trailing line
    feed, is registered, and the storage fails while its roles are
    seeded: its row stays in the directory, active and with
    [schema_created = false], and the schema its name reads as is
    [tenant_acme]. A refresh token that names the second tenant and the
    administrator is then exchanged for a new pair of tokens:
    authenticated traffic is served for a tenant whose flag is unset. *)
Lemma refresh_served_without_flag :
  Schemas.validate_slug ToyForeign.shadow_slug = true
  /\ snd ToyForeign.acme_registered
     = Raise (HTTPException 400 "Failed to create tenant: MissingGreenlet")
  /\ snd ToyForeign.shadow_registered
     = Raise (HTTPException 400 "Failed to create tenant: OperationalError")
  /\ List.map (fun t => (Models.Tenant.slug t, Models.Tenant.is_active t,
                         Models.Tenant.schema_created t))
              (Database.tenants ToyForeign.shared_db)
     = [("acme", true, true); (ToyForeign.shadow_slug, true, false)]
  /\ Security.verify_token (L := ToyForeign.libs) "root.refresh" "refresh" 0 0
     = Return (Some {| Security.sub := "0b8f6c1e-2d47-4f3a-9c55-7e1a2b3c4d05";
                       Security.tenant_id := ToyForeign.shadow_slug;
                       Security.exp := 9000 * Datetime.SECOND;
                       Security.type := "refresh"; Security.roles := [] |})
  /\ AuthApi.refresh_token (L := ToyForeign.libs) "root.refresh" 0 0 0 0
       Fixtures.new_connection ToyForeign.shared_db
     = (ToyForeign.shared_db,
        Return {| Schemas.access_token :=
                    "0b8f6c1e-2d47-4f3a-9c55-7e1a2b3c4d05.access";
                  Schemas.refresh_token :=
                    "0b8f6c1e-2d47-4f3a-9c55-7e1a2b3c4d05.refresh";
                  Schemas.token_type := "bearer";
                  Schemas.expires_in := 1800 |}).
Proof. repeat split; vm_compute; reflexivity. Qed.

(** ** The login endpoint *)

Module AuthApiProps.
Import Models Database.


Section WithLibs.
Context {L : External}.

(** No tenant named, no such tenant, or a deactivated tenant: the
    generic failure, and the database is not touched. *)
Lemma login_without_tenant (request : Schemas.LoginRequest)
    (clock : UserService.AuthClock) (now_access now_refresh : datetime)
    (inherited : list string) (db : Db) :
  truthy_opt (Schemas.tenant_slug request) = false
  \/ (exists slug, Schemas.tenant_slug request = Some slug
                   /\ (List.filter (fun t => String.eqb (Tenant.slug t) slug)
                                   (tenants db) = []
                       \/ exists tenant,
                            List.filter (fun t => String.eqb (Tenant.slug t) slug)
                                        (tenants db) = [tenant]
                            /\ Tenant.is_active tenant = false)) ->
  AuthApi.login request clock now_access now_refresh inherited db
  = (db, Raise AuthApi.INVALID_CREDENTIALS).
Proof.
  unfold AuthApi.login, get_db, AuthApi.login_body, AuthService.login, bind.
  intros [Hnone|(slug & Hslug & Hrows)].
  - rewrite Hnone. reflexivity.
  - rewrite Hslug. simpl. destruct (truthy slug); [|reflexivity]. simpl.
    destruct Hrows as [Hrows|(tenant & Hrows & Hact)]; rewrite Hrows; simpl;
      [|rewrite Hact]; reflexivity.
Qed.



End WithLibs.

End AuthApiProps.

(** C9, at the failing input. Two failing logins for the tenant
    ["acme"] at 12:45: one for a user that does not exist, one for Alice
    with a wrong password, her fifth failure. The first is answered with
    the generic 401; the second leaves the endpoint as an unhandled
    [ValueError], which the caller sees as a 500. *)
Lemma login_failures_distinguishable :
  AuthApi.login (L := Toy.libs)
    {| Schemas.username := "mallory"; Schemas.password := "wrong";
       Schemas.tenant_slug := Some "acme" |}
    (UserService.at_instant Fixtures.quarter_to_one) 0 0
    Fixtures.new_connection Fixtures.acme_db
  = (Fixtures.acme_db, Raise AuthApi.INVALID_CREDENTIALS)
  /\ AuthApi.login (L := Toy.libs)
       {| Schemas.username := "alice"; Schemas.password := "wrong";
          Schemas.tenant_slug := Some "acme" |}
       (UserService.at_instant Fixtures.quarter_to_one) 0 0
       Fixtures.new_connection Fixtures.acme_db
     = (Fixtures.acme_db, Raise ValueError)
  /\ caller_visible AuthApi.INVALID_CREDENTIALS
     = (401, "Invalid credentials or tenant")
  /\ caller_visible ValueError = (500, "Internal Server Error").
Proof. repeat split; vm_compute; reflexivity. Qed.

(** ** Instances of the general lemmas on the example data *)


Lemma dispatch_clears_on_return_witness :
  fst (Tenancy.dispatch (L := Toy.libs) (Some "stale")
         TenancySpec.asterisk_request TenancySpec.echo_handler 0) = None.
Proof.
  eapply (TenancyProps.dispatch_clears_on_return (L := Toy.libs)
            (Some "stale") TenancySpec.asterisk_request
            TenancySpec.echo_handler 0);
    [reflexivity|vm_compute; reflexivity].
Defined.

Lemma dispatch_keeps_tenant_on_error_witness :
  Tenancy.dispatch (L := Toy.libs) None TenancySpec.asterisk_request
                   (fun _ _ => Raise TypeError) 0
  = (Some "acme", Raise TypeError).
Proof.
  apply (TenancyProps.dispatch_keeps_tenant_on_error (L := Toy.libs)
           None TenancySpec.asterisk_request (fun _ _ => Raise TypeError) 0
           "acme" TypeError);
    vm_compute; reflexivity.
Defined.


Lemma authenticate_lockout_refused_witness :
  UserService.authenticate (L := Toy.libs) "alice" "wrong"
    (UserService.at_instant Fixtures.ten_past_twelve) Fixtures.acme_session
  = (Fixtures.acme_session, Raise DBAPIError).
Proof.
  apply (UserServiceProps.authenticate_lockout_refused (L := Toy.libs)
           Fixtures.acme_session "tenant_acme" Fixtures.acme_users
           "alice" "wrong" Fixtures.ten_past_twelve Fixtures.alice).
  - reflexivity.
  - reflexivity.
  - left. reflexivity.
  - reflexivity.
  - intros t Hlock. discriminate Hlock.
  - reflexivity.
  - vm_compute. discriminate.
  - reflexivity.
Defined.

Lemma authenticate_failure_raises_witness :
  UserService.authenticate (L := Toy.libs) "alice" "wrong"
    (UserService.at_instant Fixtures.quarter_to_one) Fixtures.acme_session
  = (Fixtures.acme_session, Raise ValueError).
Proof.
  apply (UserServiceProps.authenticate_failure_raises (L := Toy.libs)
           Fixtures.acme_session "tenant_acme" Fixtures.acme_users
           "alice" "wrong" Fixtures.quarter_to_one Fixtures.alice).
  - reflexivity.
  - reflexivity.
  - left. reflexivity.
  - reflexivity.
  - intros t Hlock. discriminate Hlock.
  - reflexivity.
  - vm_compute. discriminate.
  - vm_compute. discriminate.
Defined.

Lemma register_tenant_keeps_row_witness :
  Directory.has_slug "globex"
    (fst (AuthApi.register_tenant (L := Toy.libs) Fixtures.fail_admin_insert
            (Fixtures.registration "globex") Fixtures.fresh_ids 0 0
            Fixtures.new_connection Fixtures.fresh_db)).
Proof.
  eapply (ProvisioningProps.register_tenant_keeps_row (L := Toy.libs)
            Fixtures.fail_admin_insert (Fixtures.registration "globex")
            Fixtures.fresh_ids 0 0 Fixtures.new_connection Fixtures.fresh_db).
  vm_compute. reflexivity.
Defined.

Lemma login_without_tenant_witness :
  AuthApi.login (L := Toy.libs)
    {| Schemas.username := "alice"; Schemas.password := "correct horse";
       Schemas.tenant_slug := Some "initech" |}
    (UserService.at_instant Fixtures.ten_past_twelve) 0 0
    ["tenant_acme"; "public"] Fixtures.acme_db
  = (Fixtures.acme_db, Raise AuthApi.INVALID_CREDENTIALS).
Proof.
  apply (AuthApiProps.login_without_tenant (L := Toy.libs)).
  right. exists "initech". split; [reflexivity|]. left. reflexivity.
Defined.


(** ** Minted tokens *)

Module TokenProps.
Import Security.

Section WithLibs.
Context {L : External}.

(** What [verify_token] makes of a token whose signature validates and
    whose claims are complete, before its expiry: the payload when the
    kind is the expected one, [None] otherwise. *)
Lemma verify_token_minted (token kind expected : string)
    (user_id tenant : string) (listed : option (list string)) (e : Z)
    (now_lib now : datetime) :
  jws_verify token
  = Some {| c_sub := Some user_id; c_tenant_id := Some tenant;
            c_roles := listed; c_exp := Some e; c_type := Some kind |} ->
  Datetime.MIN_TIMESTAMP <= e <= Datetime.MAX_TIMESTAMP ->
  now_lib <= now -> now <= e * Datetime.SECOND ->
  verify_token token expected now_lib now
  = if String.eqb kind expected
    then Return (Some {| sub := user_id; tenant_id := tenant;
                         exp := e * Datetime.SECOND; type := kind;
                         roles := default [] listed |})
    else Return None.
Proof.
  intros Hsig Hrange Hmono Hfresh. unfold verify_token.
  rewrite (SecurityProps.decode_token_signed token now_lib _ e Hsig eq_refl).
  2:{ apply (SecurityProps.library_expiry_subsumed e now_lib now Hmono). lia. }
  unfold build_payload, Datetime.fromtimestamp. cbn [c_exp c_sub c_tenant_id].
  replace ((Datetime.MIN_TIMESTAMP <=? e) && (e <=? Datetime.MAX_TIMESTAMP))
    with true by (symmetry; apply andb_true_intro; split; apply Z.leb_le; lia).
  cbn. destruct (String.eqb kind expected); cbn; [|reflexivity].
  replace (e * Datetime.SECOND <? now) with false
    by (symmetry; apply Z.ltb_ge; lia).
  reflexivity.
Qed.

Lemma timegm_bounds (dt : datetime) :
  dt - Datetime.SECOND < Datetime.timegm dt * Datetime.SECOND <= dt.
Proof.
  unfold Datetime.timegm, Datetime.SECOND.
  pose proof (Z.mul_div_le dt 1000000 ltac:(lia)).
  pose proof (Z.mul_succ_div_gt dt 1000000 ltac:(lia)). lia.
Qed.

(** An access token read back by the library as it was minted is
    accepted as an access token, with the subject, tenant and roles it
    was minted for, from its issue until one second before the nominal
    expiry; the same token is never accepted as a refresh token. *)
Theorem access_token_round_trip (user_id tenant : string) (granted : list string)
    (issued now_lib now : datetime) :
  let expire := issued + Datetime.timedelta_minutes
                           Settings.ACCESS_TOKEN_EXPIRE_MINUTES in
  let token := create_access_token user_id tenant granted issued in
  jws_verify token
  = Some {| c_sub := Some user_id; c_tenant_id := Some tenant;
            c_roles := Some granted; c_exp := Some (Datetime.timegm expire);
            c_type := Some "access" |} ->
  0 <= issued -> expire <= Datetime.MAX_TIMESTAMP * Datetime.SECOND ->
  now_lib <= now -> now <= expire - Datetime.SECOND ->
  verify_token token "access" now_lib now
  = Return (Some {| sub := user_id; tenant_id := tenant;
                    exp := Datetime.timegm expire * Datetime.SECOND;
                    type := "access"; roles := granted |})
  /\ verify_token token "refresh" now_lib now = Return None.
Proof.
  intros expire token Hsig Hissued Hmax Hmono Hfresh.
  pose proof (timegm_bounds expire) as Hb.
  assert (Hrange : Datetime.MIN_TIMESTAMP <= Datetime.timegm expire
                   <= Datetime.MAX_TIMESTAMP).
  { subst expire.
    unfold Datetime.MIN_TIMESTAMP, Datetime.MAX_TIMESTAMP, Datetime.SECOND,
      Datetime.timedelta_minutes, Datetime.MINUTE,
      Settings.ACCESS_TOKEN_EXPIRE_MINUTES in *.
    unfold Datetime.SECOND in *. lia. }
  split.
  - rewrite (verify_token_minted token "access" "access" user_id tenant
               (Some granted) _ now_lib now Hsig Hrange Hmono); [reflexivity|].
    unfold Datetime.SECOND in *. lia.
  - rewrite (verify_token_minted token "access" "refresh" user_id tenant
               (Some granted) _ now_lib now Hsig Hrange Hmono); [reflexivity|].
    unfold Datetime.SECOND in *. lia.
Qed.

(** The same for a refresh token: it is accepted as a refresh token,
    carries no roles, and is never accepted as an access token. *)
Theorem refresh_token_round_trip (user_id tenant : string)
    (issued now_lib now : datetime) :
  let expire := issued + Datetime.timedelta_days
                           Settings.REFRESH_TOKEN_EXPIRE_DAYS in
  let token := create_refresh_token user_id tenant issued in
  jws_verify token
  = Some {| c_sub := Some user_id; c_tenant_id := Some tenant;
            c_roles := None; c_exp := Some (Datetime.timegm expire);
            c_type := Some "refresh" |} ->
  0 <= issued -> expire <= Datetime.MAX_TIMESTAMP * Datetime.SECOND ->
  now_lib <= now -> now <= expire - Datetime.SECOND ->
  verify_token token "refresh" now_lib now
  = Return (Some {| sub := user_id; tenant_id := tenant;
                    exp := Datetime.timegm expire * Datetime.SECOND;
                    type := "refresh"; roles := [] |})
  /\ verify_token token "access" now_lib now = Return None.
Proof.
  intros expire token Hsig Hissued Hmax Hmono Hfresh.
  pose proof (timegm_bounds expire) as Hb.
  assert (Hrange : Datetime.MIN_TIMESTAMP <= Datetime.timegm expire
                   <= Datetime.MAX_TIMESTAMP).
  { subst expire.
    unfold Datetime.MIN_TIMESTAMP, Datetime.MAX_TIMESTAMP, Datetime.SECOND,
      Datetime.timedelta_days, Datetime.DAY,
      Settings.REFRESH_TOKEN_EXPIRE_DAYS in *.
    unfold Datetime.SECOND in *. lia. }
  split.
  - rewrite (verify_token_minted token "refresh" "refresh" user_id tenant
               None _ now_lib now Hsig Hrange Hmono); [reflexivity|].
    unfold Datetime.SECOND in *. lia.
  - rewrite (verify_token_minted token "refresh" "access" user_id tenant
               None _ now_lib now Hsig Hrange Hmono); [reflexivity|].
    unfold Datetime.SECOND in *. lia.
Qed.

(** The two token dependencies agree: the mandatory one returns a
    payload exactly when the optional one does, and a payload either of
    them returns is of kind ["access"] and has not expired. *)
Theorem token_dependencies_agree (credentials : option string)
    (now_lib now : datetime) (p : TokenPayload) :
  (Dependencies.get_current_user_token credentials now_lib now = Return p
   <-> Dependencies.get_optional_user_token credentials now_lib now
       = Return (Some p))
  /\ (Dependencies.get_current_user_token credentials now_lib now = Return p ->
      type p = "access" /\ now <= exp p).
Proof.
  unfold Dependencies.get_current_user_token, Dependencies.get_optional_user_token.
  destruct credentials as [token|].
  - assert (Hkind : verify_token token "access" now_lib now = Return (Some p) ->
                    type p = "access" /\ now <= exp p).
    { unfold verify_token.
      destruct (decode_token token now_lib) as [[q|]|err]; simpl; try discriminate.
      destruct (String.eqb (type q) "access") eqn:Hk; simpl; [|discriminate].
      destruct (exp q <? now) eqn:He; [discriminate|].
      intros H. injection H as <-. apply String.eqb_eq in Hk.
      apply Z.ltb_ge in He. auto. }
    destruct (verify_token token "access" now_lib now) as [[q|]|err]; simpl.
    + split; [split; intros H; injection H as <-; reflexivity|].
      intros H. injection H as <-. now apply Hkind.
    + split; [split; discriminate|discriminate].
    + split; [split; discriminate|discriminate].
  - split; [split; discriminate|discriminate].
Qed.

End WithLibs.

(** The permission check looks at the token only: it allows exactly the
    tokens that hold ["admin"], whatever permissions are required, and a
    token it allows passes every role check as well. *)
Theorem require_permissions_admin_only
    (required_permissions : list string) (token : TokenPayload) :
  (Dependencies.require_permissions required_permissions token = Return token
   <-> "admin" ∈ roles token)
  /\ ("admin" ∉ roles token ->
      is_forbidden (Dependencies.require_permissions required_permissions token))
  /\ (Dependencies.require_permissions required_permissions token = Return token ->
      forall required_roles,
        Dependencies.require_roles required_roles token = Return token).
Proof.
  unfold Dependencies.require_permissions.
  case_bool_decide as Hadmin.
  - split; [tauto|]. split; [tauto|]. intros _ required_roles.
    apply DependenciesProps.require_roles_allows_iff. now left.
  - split; [split; [discriminate|tauto]|]. split; [|discriminate].
    intros _. unfold is_forbidden. eauto.
Qed.

End TokenProps.

(** ** Public paths and tenant binding behind the middleware *)

Module TenantBindingProps.
Import Tenancy TenantBinding Database.

Lemma prefix_app (s p suffix : string) :
  String.prefix s p = true -> String.prefix s (p ++ suffix) = true.
Proof.
  revert p. induction s as [|a s IH]; intros p;
    [intros _; destruct (p ++ suffix); reflexivity|].
  destruct p as [|b p]; cbn [String.prefix]; [discriminate|].
  change (String b p ++ suffix) with (String b (p ++ suffix)).
  cbn [String.prefix].
  destruct (ascii_dec a b); [apply IH|discriminate].
Qed.

(** Matching by prefix is closed under extension: whatever list of
    public paths is configured, every path that continues a public path
    is public too. *)
Theorem public_paths_extend (public_paths : list string) (path suffix : string) :
  is_public_in public_paths path = true ->
  is_public_in public_paths (path ++ suffix) = true.
Proof.
  induction public_paths as [|public_path rest IH]; [discriminate|].
  cbn [is_public_in].
  destruct (String.prefix public_path path || String.eqb path public_path)
    eqn:Hhere.
  - intros _.
    assert (Hpre : String.prefix public_path path = true).
    { apply orb_true_iff in Hhere as [H|H]; [exact H|].
      apply String.eqb_eq in H. subst path.
      clear. induction public_path as [|a s IH]; [reflexivity|].
      cbn [String.prefix]. destruct (ascii_dec a a); [exact IH|contradiction]. }
    rewrite (prefix_app _ _ suffix Hpre). reflexivity.
  - intros H. rewrite (IH H).
    destruct (String.prefix public_path (path ++ suffix)
              || String.eqb (path ++ suffix) public_path); reflexivity.
Qed.

Section WithLibs.
Context {L : External}.

(** Behind the middleware, with the context variable unset on entry, an
    endpoint that requires a tenant never runs for a path that begins
    with a slash: whatever token or headers the request carries, the
    answer is the 400 of [require_tenant]. *)
Theorem require_tenant_behind_middleware (request : Request)
    (endpoint : string -> res Response) (now_lib : datetime) :
  String.prefix "/" (url_path request) = true ->
  dispatch None request (behind_require_tenant endpoint) now_lib
  = (None, Raise (HTTPException HTTP_400_BAD_REQUEST "Tenant ID is required")).
Proof.
  intros Hslash. unfold dispatch.
  rewrite (TenancyProps.slash_prefix_public _ Hslash). reflexivity.
Qed.

(** Likewise an endpoint that takes its session from [get_tenant_db]
    is given, for every such request, the session as the pool hands it
    out: [get_tenant_db] binds no tenant schema, and the endpoint runs on
    the search path the connection was left with, whichever tenant an
    earlier request bound it to. *)
Theorem tenant_db_behind_middleware (request : Request)
    (endpoint : M Response) (inherited : list string) (db : Db)
    (now_lib : datetime) :
  String.prefix "/" (url_path request) = true ->
  dispatch None request (behind_tenant_db endpoint inherited db) now_lib
  = (None, snd (endpoint {| committed := db; working := db;
                            search_path := inherited |})).
Proof.
  intros Hslash. unfold dispatch.
  rewrite (TenancyProps.slash_prefix_public _ Hslash).
  unfold behind_tenant_db, get_db, get_tenant_db, bind. simpl.
  change (open_session inherited db)
    with {| committed := db; working := db; search_path := inherited |}.
  destruct (endpoint _) as [s r]. reflexivity.
Qed.

End WithLibs.

Lemma sql_tokens_cascade (name : string) :
  sql_identifier name = true ->
  drop_targets (sql_tokens (name ++ " CASCADE")) = Some ([sql_fold name], true).
Proof.
  intros H. rewrite (DatabaseProps.sql_tokens_identifier name " CASCADE" H);
    reflexivity.
Qed.

(** Creating a tenant schema that did not exist and dropping it again
    leaves the schemas as they were. The schema is the one the catalog
    holds for the spliced name. *)
Theorem create_drop_schema_round_trip (tenant_id : string) (s : Session) :
  sql_identifier (Settings.TENANT_SCHEMA_PREFIX ++ tenant_id) = true ->
  schemas (working s) !! sql_fold (Settings.TENANT_SCHEMA_PREFIX ++ tenant_id)
  = None ->
  exists s',
    (run _ <- create_tenant_schema tenant_id in drop_tenant_schema tenant_id) s
    = (s', Return tt)
    /\ schemas (committed s') = schemas (working s)
    /\ tenants (committed s') = tenants (working s).
Proof.
  intros Hident Habsent.
  unfold create_tenant_schema, drop_tenant_schema, drop_schema_if_exists,
    TenantService.create_schema_if_not_exists.
  rewrite (DatabaseProps.sql_tokens_schema _ Hident), (sql_tokens_cascade _ Hident).
  unfold bind, get_working, put_working, commit, ret.
  rewrite Habsent. cbn [working schemas negb andb foldr].
  eexists. split; [reflexivity|]. cbn [committed schemas tenants].
  split; [|reflexivity].
  rewrite delete_insert_eq. now apply delete_id.
Qed.

End TenantBindingProps.

(** ** Pagination *)

Module CommonProps.

(** For a positive page size and a count that is not negative, the
    page count is the least number of pages that hold all items: the
    pages have room for them, one page fewer has not, there is no page
    exactly when there is no item, and the offset of every page up to
    the last lies before the end of the items. *)
Theorem pages_bounds (total page_size : Z) :
  0 < page_size -> 0 <= total ->
  total <= Common.pages total page_size * page_size
  /\ (Common.pages total page_size - 1) * page_size < total
  /\ (Common.pages total page_size = 0 <-> total = 0)
  /\ (forall page, 1 <= page <= Common.pages total page_size ->
        0 <= Common.offset page page_size < total).
Proof.
  intros Hsize Htotal. unfold Common.pages, Common.offset.
  replace (0 <? page_size) with true by (symmetry; apply Z.ltb_lt; lia).
  pose proof (Z.div_mod (total + page_size - 1) page_size ltac:(lia)) as Hdiv.
  pose proof (Z.mod_pos_bound (total + page_size - 1) page_size Hsize) as Hmod.
  set (q := (total + page_size - 1) / page_size) in *.
  set (r := (total + page_size - 1) mod page_size) in *.
  assert (H1 : total <= q * page_size) by nia.
  assert (H2 : (q - 1) * page_size < total) by nia.
  repeat split; try assumption; nia.
Qed.

(** A page size that is not positive gives no page. *)
Lemma pages_degenerate (total page_size : Z) :
  page_size <= 0 -> Common.pages total page_size = 0.
Proof.
  intros H. unfold Common.pages.
  replace (0 <? page_size) with false by (symmetry; apply Z.ltb_ge; lia).
  reflexivity.
Qed.

End CommonProps.

(** ** Account maintenance *)

Module AccountProps.
Import Models Database UserService Guard Account.

(** Replacing the row under one key commutes with a selection whose
    condition the replacement does not change. *)
Lemma filter_map_replace {A : Type} (key : A -> string) (x' : A)
    (cond : A -> bool) (rows : list A) :
  (forall r, In r rows -> key r = key x' -> cond x' = cond r) ->
  List.filter cond
    (List.map (fun r => if String.eqb (key r) (key x') then x' else r) rows)
  = List.map (fun r => if String.eqb (key r) (key x') then x' else r)
             (List.filter cond rows).
Proof.
  induction rows as [|r rows IH]; intros Hcond; [reflexivity|].
  cbn [List.map List.filter].
  rewrite IH by (intros r' Hin; apply Hcond; now right).
  destruct (String.eqb (key r) (key x')) eqn:Hkey.
  - apply String.eqb_eq in Hkey.
    rewrite (Hcond r (or_introl eq_refl) Hkey).
    destruct (cond r); [|reflexivity].
    cbn [List.map]. apply String.eqb_eq in Hkey. now rewrite Hkey.
  - destruct (cond r); [|reflexivity].
    cbn [List.map]. now rewrite Hkey.
Qed.

(** Under a primary key, a row is determined by its key. *)
Lemma NoDup_key_eq {A : Type} (key : A -> string) (rows : list A) (x y : A) :
  List.NoDup (List.map key rows) -> In x rows -> In y rows -> key x = key y -> x = y.
Proof.
  induction rows as [|r rows IH]; intros Hnd Hx Hy Hkey; [destruct Hx|].
  cbn [List.map] in Hnd. apply List.NoDup_cons_iff in Hnd as [Hnotin Hnd].
  destruct Hx as [->|Hx], Hy as [->|Hy]; auto.
  - exfalso. apply Hnotin. rewrite Hkey. now apply in_map.
  - exfalso. apply Hnotin. rewrite <- Hkey. now apply in_map.
Qed.

Lemma singleton_filter_In {A : Type} (cond : A -> bool) (rows : list A) (x : A) :
  List.filter cond rows = [x] -> In x rows /\ cond x = true.
Proof.
  intros H. apply filter_In. rewrite H. now left.
Qed.

Lemma by_id_found (p : Partition) (user_id : UUID_t) (user : User.t) :
  by_id p user_id = [user] -> In user (users p) /\ User.id user = user_id.
Proof.
  intros H. apply singleton_filter_In in H as [Hin Hcond].
  apply andb_true_iff in Hcond as [Hid _]. apply String.eqb_eq in Hid. auto.
Qed.

Lemma get_by_id_resolved (s : Session) (n : string) (p : Partition)
    (user_id : UUID_t) :
  current_schema s = Some n -> schemas (working s) !! n = Some p ->
  get_by_id user_id s = (s, scalar_one_or_none (by_id p user_id)).
Proof.
  intros Hsch Hpart. unfold get_by_id, select_user, bind.
  rewrite (UserServiceProps.partition_resolved s n p Hsch Hpart). reflexivity.
Qed.

Section WithLibs.
Context {L : External}.



End WithLibs.

End AccountProps.

(** ** The tenant directory *)

Module DirectoryProps.
Import Models Database Directory Account.

Lemma existsb_false_filter {A : Type} (cond weaker : A -> bool) (rows : list A) :
  (forall r, weaker r = true -> cond r = true) ->
  existsb cond rows = false -> List.filter weaker rows = [].
Proof.
  intros Himp. induction rows as [|r rows IH]; [reflexivity|].
  cbn [existsb List.filter]. intros H. apply orb_false_iff in H as [Hr Hrest].
  destruct (weaker r) eqn:Hw; [|now apply IH].
  rewrite (Himp r Hw) in Hr. discriminate.
Qed.

(** A tenant that [create] has just returned is the one row
    [get_by_slug] finds for its slug; its partition name is the schema
    prefix followed by the slug, it is active, and it is flagged as not
    yet provisioned. *)
Theorem create_then_get_by_slug (faults : FaultPlan)
    (data : Schemas.TenantCreate) (new_id settings_id : UUID_t)
    (s s1 : Session) (tenant : Tenant.t) :
  TenantService.create faults data new_id settings_id s = (s1, Return tenant) ->
  TenantService.get_by_slug (Schemas.slug data) s1 = (s1, Return (Some tenant))
  /\ Tenant.schema_name tenant
     = Settings.TENANT_SCHEMA_PREFIX ++ Schemas.slug data
  /\ Tenant.is_active tenant = true
  /\ Tenant.schema_created tenant = false
  /\ committed s1 = working s1.
Proof.
  unfold TenantService.create, statement, bind, get_working, put_working,
    commit, raise, ret.
  destruct (faults InsertTenant); [discriminate|].
  destruct (_ <? _)%nat; [discriminate|].
  destruct (existsb _ (tenants (working s))) eqn:Hfree; [discriminate|].
  destruct (faults InsertTenantSettings); [discriminate|]. cbn [working].
  destruct (existsb _ (tenant_settings _)); [discriminate|].
  intros H. injection H as <- <-.
  rewrite AuthServiceProps.get_by_slug_run. cbn [working tenants].
  rewrite List.filter_app.
  assert (Hnone : List.filter
                    (fun t => String.eqb (Tenant.slug t) (Schemas.slug data))
                    (tenants (working s)) = []).
  { eapply existsb_false_filter; [|exact Hfree].
    intros r Hr. cbn beta. rewrite Hr, orb_true_r. reflexivity. }
  rewrite Hnone. cbn. rewrite String.eqb_refl. auto.
Qed.

(** Registering a slug that is already in the directory fails at once
    with a 400, and the database is left exactly as it was. *)
Theorem register_existing_slug_fails_fast {L : External} (faults : FaultPlan)
    (request : Schemas.TenantRegistration) (ids : AuthService.FreshIds)
    (now_access now_refresh : datetime) (inherited : list string) (db : Db) :
  has_slug (Schemas.reg_tenant_slug request) db ->
  exists detail,
    AuthApi.register_tenant faults request ids now_access now_refresh
                            inherited db
    = (db, Raise (HTTPException HTTP_400_BAD_REQUEST detail)).
Proof.
  intros (t & Hin & Hslug).
  unfold AuthApi.register_tenant, get_db, try_except,
    AuthService.register_tenant, TenantService.create, statement.
  unfold bind at 1. unfold bind at 1.
  destruct (faults InsertTenant); [cbn; eauto|].
  unfold get_working. cbn [open_session working].
  destruct (_ <? _)%nat; [cbn; eauto|].
  replace (existsb _ (tenants db)) with true; [cbn; eauto|].
  symmetry. apply existsb_exists. exists t. split; [exact Hin|].
  cbn. rewrite Hslug, String.eqb_refl. now rewrite orb_true_r.
Qed.

(** Once a tenant has been deactivated through [TenantService.delete],
    every login for its slug is answered with the generic 401, on
    whatever connection it runs. *)
Theorem deactivated_tenant_login_fails {L : External}
    (inherited : list string) (db : Db)
    (tenant_id : UUID_t) (tenant : Tenant.t) (request : Schemas.LoginRequest)
    (clock : UserService.AuthClock) (now_access now_refresh : datetime) :
  tenants_primary_key db ->
  List.filter (fun t => String.eqb (Tenant.id t) tenant_id) (tenants db)
  = [tenant] ->
  List.filter (fun t => String.eqb (Tenant.slug t) (Tenant.slug tenant))
              (tenants db) = [tenant] ->
  Schemas.tenant_slug request = Some (Tenant.slug tenant) ->
  exists db',
    get_db (delete_tenant tenant_id) inherited db = (db', Return true)
    /\ List.filter (fun t => String.eqb (Tenant.slug t) (Tenant.slug tenant))
                   (tenants db') = [with_is_active false tenant]
    /\ forall later,
         AuthApi.login request clock now_access now_refresh later db'
         = (db', Raise AuthApi.INVALID_CREDENTIALS).
Proof.
  intros Hpk Hid Hslug Hreq.
  destruct (AccountProps.singleton_filter_In _ _ _ Hid) as [Hin _].
  set (tenant' := with_is_active false tenant).
  assert (Hlogin : forall later db0,
    List.filter (fun t => String.eqb (Tenant.slug t) (Tenant.slug tenant))
                (tenants db0) = [tenant'] ->
    AuthApi.login request clock now_access now_refresh later db0
    = (db0, Raise AuthApi.INVALID_CREDENTIALS)).
  { intros later db0 Hrows0.
    unfold AuthApi.login, get_db, AuthApi.login_body, AuthService.login, bind.
    rewrite Hreq. simpl. destruct (truthy (Tenant.slug tenant)); [|reflexivity].
    simpl. rewrite Hrows0. reflexivity. }
  assert (Hrows :
    List.filter (fun t => String.eqb (Tenant.slug t) (Tenant.slug tenant))
      (List.map (fun r => if String.eqb (Tenant.id r) (Tenant.id tenant')
                          then tenant' else r) (tenants db))
    = [tenant']).
  { rewrite (AccountProps.filter_map_replace Tenant.id tenant').
    - rewrite Hslug. cbn. now rewrite String.eqb_refl.
    - intros r Hr Hkey.
      now rewrite (AccountProps.NoDup_key_eq Tenant.id (tenants db) r tenant
                     Hpk Hr Hin Hkey). }
  eexists. split; [|split].
  - unfold get_db, delete_tenant, tenant_by_id, bind, get_working, lift.
    cbn [open_session working]. rewrite Hid. cbn. reflexivity.
  - cbn [tenants]. exact Hrows.
  - intros later. apply Hlogin. cbn [tenants]. exact Hrows.
Qed.


Section WithLibs.
Context {L : External}.




End WithLibs.

End DirectoryProps.

(** The registration of ["globex"] on a fresh installation with no
    storage fault: every step is committed (the tenant row, flagged as
    provisioned; the schema with its two roles; the administrator and
    the role link) and yet the caller is told that the registration
    failed. *)
Lemma registration_committed_yet_refused :
  let r := AuthApi.register_tenant (L := Toy.libs) Database.no_faults
             (Fixtures.registration "globex") Fixtures.fresh_ids 0 0
             Fixtures.new_connection Fixtures.fresh_db in
  snd r = Raise (HTTPException 400 "Failed to create tenant: MissingGreenlet")
  /\ Database.tenants (fst r)
     = [Models.Tenant.with_schema_created true (Fixtures.new_tenant "globex")]
  /\ (exists p,
         Database.schemas (fst r) !! "tenant_globex" = Some p
         /\ List.map Models.Role.code (Database.roles p) = ["admin"; "user"]
         /\ List.map Models.User.username (Database.users p) = ["root"]
         /\ Database.user_roles p
            = [ {| Models.UserRole.user_id := "u-admin";
                   Models.UserRole.role_id := "r-admin" |} ]).
Proof.
  vm_compute. split; [reflexivity|]. split; [reflexivity|].
  eexists. repeat split; reflexivity.
Qed.

(** ** The change-password endpoint *)

Module AccountApiProps.
Import Models Database UserService Guard Account.

Section WithLibs.
Context {L : External}.

Lemma change_password_run (s : Session) (n : string) (p : Partition)
    (user_id : UUID_t) (current_password new_password : string) :
  current_schema s = Some n -> schemas (working s) !! n = Some p ->
  change_password user_id current_password new_password s
  = match scalar_one_or_none (by_id p user_id) with
    | Return None => (s, Return false)
    | Return (Some user) =>
        if Security.verify_password current_password (User.password_hash user)
        then (saved s n p (with_password_hash
                             (Security.get_password_hash new_password) user),
              Return true)
        else (s, Return false)
    | Raise e => (s, Raise e)
    end.
Proof.
  intros Hsch Hpart. unfold change_password.
  unfold bind at 1.
  rewrite (AccountProps.get_by_id_resolved s n p user_id Hsch Hpart).
  destruct (scalar_one_or_none (by_id p user_id)) as [[user|]|e];
    [|reflexivity|reflexivity].
  destruct (Security.verify_password _ _); cbn [negb]; [|reflexivity].
  apply (UserServiceProps.flush_commit_resolved s n p user _ true Hsch Hpart);
    apply UserServiceProps.sends_aware_same.
Qed.

(** [POST /auth/change-password] for a token that names a tenant: the
    400 "Invalid current password" answers a wrong current password and
    equally a token whose user has no row, and nothing is written; with
    the right current password the new hash is committed. Neither the
    activity flag nor a lockout of the account is consulted. The tenant's
    schema is looked up under the name the catalog holds for it, and the
    search path the connection came with plays no part. *)
Theorem change_password_endpoint_outcomes (current_user : Security.TokenPayload)
    (current_password new_password : string) (inherited : list string)
    (db : Db) (n : string) (p : Partition) (user_id : UUID_t) :
  truthy (Security.tenant_id current_user) = true ->
  sql_identifier (Settings.TENANT_SCHEMA_PREFIX
                  ++ Security.tenant_id current_user) = true ->
  current_schema
    {| committed := db; working := db;
       search_path := [sql_fold (Settings.TENANT_SCHEMA_PREFIX
                                 ++ Security.tenant_id current_user);
                       "public"] |}
  = Some n ->
  schemas db !! n = Some p ->
  uuid_parse (Security.sub current_user) = Some user_id ->
  (by_id p user_id = [] ->
   change_password_endpoint current_user current_password new_password
                            inherited db
   = (db, Raise (HTTPException HTTP_400_BAD_REQUEST "Invalid current password")))
  /\ (forall user,
         by_id p user_id = [user] ->
         (Security.verify_password current_password (User.password_hash user)
          = false ->
          change_password_endpoint current_user current_password new_password
                                   inherited db
          = (db, Raise (HTTPException HTTP_400_BAD_REQUEST
                          "Invalid current password")))
         /\ (Security.verify_password current_password (User.password_hash user)
             = true ->
             exists db',
               change_password_endpoint current_user current_password
                                        new_password inherited db
               = (db', Return "Password changed successfully")
               /\ stored_user db' n user_id
                  = Some (with_password_hash
                            (Security.get_password_hash new_password) user)
               /\ tenants db' = tenants db)).
Proof.
  intros Htruthy Hident Hsch Hpart Hparse.
  set (s0 := {| committed := db; working := db;
                search_path := [sql_fold (Settings.TENANT_SCHEMA_PREFIX
                                          ++ Security.tenant_id current_user);
                                "public"] |})
    in *.
  assert (Hrun :
    change_password_endpoint current_user current_password new_password
                             inherited db
    = let '(s, r) :=
        (run success <- change_password user_id current_password new_password in
         if negb success
         then raise (HTTPException HTTP_400_BAD_REQUEST "Invalid current password")
         else ret "Password changed successfully") s0 in
      (close s, r)).
  { unfold change_password_endpoint, get_db.
    rewrite Htruthy. unfold bind at 1.
    rewrite (DatabaseProps.set_search_path_bound _ _ Hident).
    cbn [open_session committed working search_path].
    unfold bind at 1. unfold lift. rewrite Hparse. reflexivity. }
  unfold bind at 1 in Hrun.
  rewrite (change_password_run s0 n p user_id current_password new_password
             Hsch Hpart) in Hrun.
  rewrite Hrun. clear Hrun.
  split.
  - intros Hnone. rewrite Hnone. reflexivity.
  - intros user Hone. rewrite Hone. cbn [scalar_one_or_none].
    split; intros Hpw; rewrite Hpw; [reflexivity|].
    eexists. split; [reflexivity|]. split; [|reflexivity].
    apply AccountProps.by_id_found in Hone as [Hin Hid]. subst user_id.
    cbn [negb close saved committed].
    unfold stored_user. cbn [schemas].
    rewrite lookup_insert_eq. cbn [mbind option_bind users].
    now apply UserServiceProps.find_replaced.
Qed.

End WithLibs.

End AccountApiProps.

(** ** Closed instances *)

Lemma access_token_round_trip_witness :
  Security.verify_token (L := ToyCodec.libs)
    (Security.create_access_token (L := ToyCodec.libs) "u-alice" "acme" ["user"]
                                  Fixtures.ten_past_twelve)
    "access" Fixtures.ten_past_twelve Fixtures.ten_past_twelve
  = Return (Some {| Security.sub := "u-alice"; Security.tenant_id := "acme";
                    Security.exp := 1704112800 * Datetime.SECOND;
                    Security.type := "access"; Security.roles := ["user"] |})
  /\ Security.verify_token (L := ToyCodec.libs)
       (Security.create_access_token (L := ToyCodec.libs) "u-alice" "acme" ["user"]
                                     Fixtures.ten_past_twelve)
       "refresh" Fixtures.ten_past_twelve Fixtures.ten_past_twelve
     = Return None.
Proof.
  apply (TokenProps.access_token_round_trip (L := ToyCodec.libs)
           "u-alice" "acme" ["user"] Fixtures.ten_past_twelve
           Fixtures.ten_past_twelve Fixtures.ten_past_twelve).
  - reflexivity.
  - vm_compute. discriminate.
  - vm_compute. discriminate.
  - vm_compute. discriminate.
  - vm_compute. discriminate.
Defined.

Lemma refresh_token_round_trip_witness :
  Security.verify_token (L := ToyCodec.libs)
    (Security.create_refresh_token (L := ToyCodec.libs) "u-alice" "acme"
                                   Fixtures.ten_past_twelve)
    "refresh" Fixtures.quarter_to_one Fixtures.quarter_to_one
  = Return (Some {| Security.sub := "u-alice"; Security.tenant_id := "acme";
                    Security.exp := 1704715800 * Datetime.SECOND;
                    Security.type := "refresh"; Security.roles := [] |})
  /\ Security.verify_token (L := ToyCodec.libs)
       (Security.create_refresh_token (L := ToyCodec.libs) "u-alice" "acme"
                                      Fixtures.ten_past_twelve)
       "access" Fixtures.quarter_to_one Fixtures.quarter_to_one
     = Return None.
Proof.
  apply (TokenProps.refresh_token_round_trip (L := ToyCodec.libs)
           "u-alice" "acme" Fixtures.ten_past_twelve
           Fixtures.quarter_to_one Fixtures.quarter_to_one).
  - reflexivity.
  - vm_compute. discriminate.
  - vm_compute. discriminate.
  - vm_compute. discriminate.
  - vm_compute. discriminate.
Defined.

Lemma public_paths_extend_witness :
  Tenancy.is_public_in ["/health"; "/docs"] ("/docs" ++ "/oauth2-redirect") = true.
Proof.
  apply (TenantBindingProps.public_paths_extend ["/health"; "/docs"]
           "/docs" "/oauth2-redirect").
  reflexivity.
Defined.

Lemma require_tenant_behind_middleware_witness :
  Tenancy.dispatch (L := Toy.libs) None
    {| Tenancy.url_path := "/api/v1/users";
       Tenancy.headers := {[ "X-Tenant-ID" := "acme" ]} |}
    (TenantBinding.behind_require_tenant
       (fun tenant_id => Return {| Tenancy.status_code := 200;
                                   Tenancy.body := tenant_id |})) 0
  = (None, Raise (HTTPException HTTP_400_BAD_REQUEST "Tenant ID is required")).
Proof.
  apply (TenantBindingProps.require_tenant_behind_middleware (L := Toy.libs)).
  reflexivity.
Defined.

Lemma tenant_db_behind_middleware_witness :
  Tenancy.dispatch (L := Toy.libs) None
    {| Tenancy.url_path := "/api/v1/users";
       Tenancy.headers := {[ "X-Tenant-ID" := "globex" ]} |}
    (TenantBinding.behind_tenant_db
       (run user <- UserService.get_by_username "dave" in
        Database.ret {| Tenancy.status_code := 200;
                        Tenancy.body := "found" |})
       ["tenant_acme"; "public"] Fixtures.acme_db) 0
  = (None,
     snd ((run user <- UserService.get_by_username "dave" in
           Database.ret {| Tenancy.status_code := 200;
                           Tenancy.body := "found" |})
            {| Database.committed := Fixtures.acme_db;
               Database.working := Fixtures.acme_db;
               Database.search_path := ["tenant_acme"; "public"] |})).
Proof.
  apply (TenantBindingProps.tenant_db_behind_middleware (L := Toy.libs)).
  reflexivity.
Defined.

Lemma create_drop_schema_round_trip_witness :
  exists s',
    (run _ <- TenantBinding.create_tenant_schema "globex" in
     TenantBinding.drop_tenant_schema "globex") Fixtures.acme_session
    = (s', Return tt)
    /\ Database.schemas (Database.committed s')
       = Database.schemas (Database.working Fixtures.acme_session)
    /\ Database.tenants (Database.committed s')
       = Database.tenants (Database.working Fixtures.acme_session).
Proof.
  apply (TenantBindingProps.create_drop_schema_round_trip "globex"
           Fixtures.acme_session).
  - reflexivity.
  - reflexivity.
Defined.

Lemma pages_bounds_witness :
  45 <= Common.pages 45 20 * 20
  /\ (Common.pages 45 20 - 1) * 20 < 45
  /\ (Common.pages 45 20 = 0 <-> 45 = 0)
  /\ (forall page, 1 <= page <= Common.pages 45 20 ->
        0 <= Common.offset page 20 < 45).
Proof.
  apply (CommonProps.pages_bounds 45 20); lia.
Defined.




Lemma create_then_get_by_slug_witness :
  TenantService.get_by_slug "globex"
    (fst (TenantService.create Database.no_faults
            {| Schemas.name := "New Tenant"; Schemas.slug := "globex";
               Schemas.contact_email := "ops@new.test" |}
            "t-new" "s-new" (Database.open_session Fixtures.new_connection Fixtures.fresh_db)))
  = (fst (TenantService.create Database.no_faults
            {| Schemas.name := "New Tenant"; Schemas.slug := "globex";
               Schemas.contact_email := "ops@new.test" |}
            "t-new" "s-new" (Database.open_session Fixtures.new_connection Fixtures.fresh_db)),
     Return (Some (Fixtures.new_tenant "globex")))
  /\ Models.Tenant.schema_name (Fixtures.new_tenant "globex")
     = Settings.TENANT_SCHEMA_PREFIX ++ "globex"
  /\ Models.Tenant.is_active (Fixtures.new_tenant "globex") = true
  /\ Models.Tenant.schema_created (Fixtures.new_tenant "globex") = false
  /\ Database.committed
       (fst (TenantService.create Database.no_faults
               {| Schemas.name := "New Tenant"; Schemas.slug := "globex";
                  Schemas.contact_email := "ops@new.test" |}
               "t-new" "s-new" (Database.open_session Fixtures.new_connection Fixtures.fresh_db)))
     = Database.working
         (fst (TenantService.create Database.no_faults
                 {| Schemas.name := "New Tenant"; Schemas.slug := "globex";
                    Schemas.contact_email := "ops@new.test" |}
                 "t-new" "s-new" (Database.open_session Fixtures.new_connection Fixtures.fresh_db))).
Proof.
  apply (DirectoryProps.create_then_get_by_slug Database.no_faults
           {| Schemas.name := "New Tenant"; Schemas.slug := "globex";
              Schemas.contact_email := "ops@new.test" |}
           "t-new" "s-new" (Database.open_session Fixtures.new_connection Fixtures.fresh_db)
           (fst (TenantService.create Database.no_faults
                   {| Schemas.name := "New Tenant"; Schemas.slug := "globex";
                      Schemas.contact_email := "ops@new.test" |}
                   "t-new" "s-new" (Database.open_session Fixtures.new_connection Fixtures.fresh_db)))
           (Fixtures.new_tenant "globex")).
  reflexivity.
Defined.

Lemma register_existing_slug_fails_fast_witness :
  exists detail,
    AuthApi.register_tenant (L := Toy.libs) Database.no_faults
      (Fixtures.registration "acme") Fixtures.fresh_ids 0 0
      Fixtures.new_connection Fixtures.acme_db
    = (Fixtures.acme_db, Raise (HTTPException HTTP_400_BAD_REQUEST detail)).
Proof.
  apply (DirectoryProps.register_existing_slug_fails_fast (L := Toy.libs)).
  exists Fixtures.acme. split; [left; reflexivity|reflexivity].
Defined.

Lemma deactivated_tenant_login_fails_witness :
  exists db',
    Database.get_db (Account.delete_tenant "t-acme") Fixtures.new_connection
                    Fixtures.acme_db
    = (db', Return true)
    /\ List.filter
         (fun t => String.eqb (Models.Tenant.slug t)
                              (Models.Tenant.slug Fixtures.acme))
         (Database.tenants db')
       = [Account.with_is_active false Fixtures.acme]
    /\ forall later,
         AuthApi.login (L := Toy.libs)
           {| Schemas.username := "dave"; Schemas.password := "hunter2";
              Schemas.tenant_slug := Some "acme" |}
           (UserService.at_instant Fixtures.quarter_to_one) 0 0 later db'
         = (db', Raise AuthApi.INVALID_CREDENTIALS).
Proof.
  apply (DirectoryProps.deactivated_tenant_login_fails (L := Toy.libs)
           Fixtures.new_connection Fixtures.acme_db "t-acme" Fixtures.acme).
  - unfold Account.tenants_primary_key. simpl.
    repeat (constructor; [simpl; intuition discriminate|]). constructor.
  - reflexivity.
  - reflexivity.
  - reflexivity.
Defined.


Lemma change_password_endpoint_outcomes_witness :
  (Account.by_id Fixtures.acme_users "u-carol" = [] ->
   Account.change_password_endpoint (L := Toy.libs)
     {| Security.sub := "u-carol"; Security.tenant_id := "acme";
        Security.exp := 2000 * Datetime.SECOND; Security.type := "access";
        Security.roles := [] |}
     "tr0ub4dor" "n3w-secret" Fixtures.new_connection Fixtures.acme_db
   = (Fixtures.acme_db,
      Raise (HTTPException HTTP_400_BAD_REQUEST "Invalid current password")))
  /\ (forall user,
         Account.by_id Fixtures.acme_users "u-carol" = [user] ->
         (Security.verify_password (L := Toy.libs) "tr0ub4dor"
                                   (Models.User.password_hash user) = false ->
          Account.change_password_endpoint (L := Toy.libs)
            {| Security.sub := "u-carol"; Security.tenant_id := "acme";
               Security.exp := 2000 * Datetime.SECOND; Security.type := "access";
               Security.roles := [] |}
            "tr0ub4dor" "n3w-secret" Fixtures.new_connection Fixtures.acme_db
          = (Fixtures.acme_db,
             Raise (HTTPException HTTP_400_BAD_REQUEST
                      "Invalid current password")))
         /\ (Security.verify_password (L := Toy.libs) "tr0ub4dor"
                                      (Models.User.password_hash user) = true ->
             exists db',
               Account.change_password_endpoint (L := Toy.libs)
                 {| Security.sub := "u-carol"; Security.tenant_id := "acme";
                    Security.exp := 2000 * Datetime.SECOND;
                    Security.type := "access"; Security.roles := [] |}
                 "tr0ub4dor" "n3w-secret" Fixtures.new_connection Fixtures.acme_db
               = (db', Return "Password changed successfully")
               /\ Guard.stored_user db' "tenant_acme" "u-carol"
                  = Some (Account.with_password_hash
                            (Security.get_password_hash (L := Toy.libs)
                                                        "n3w-secret")
                            user)
               /\ Database.tenants db' = Database.tenants Fixtures.acme_db)).
Proof.
  apply (AccountApiProps.change_password_endpoint_outcomes (L := Toy.libs)
           {| Security.sub := "u-carol"; Security.tenant_id := "acme";
              Security.exp := 2000 * Datetime.SECOND; Security.type := "access";
              Security.roles := [] |}
           "tr0ub4dor" "n3w-secret" Fixtures.new_connection Fixtures.acme_db
           "tenant_acme" Fixtures.acme_users "u-carol").
  - reflexivity.
  - reflexivity.
  - reflexivity.
  - reflexivity.
  - reflexivity.
Defined.
